(** * NBA prop dashboard ([Player_GUI.py]): a shallow embedding

    The dashboard is one Python module.  Its own logic is a handful of
    small functions (season string, matchup multiplier, slot
    simplification, over-the-line flags) and one button handler that
    glues them to the statistics API and to the display.

    Conventions of the embedding:
    - Python numbers are modelled by their exact values: integers as [Z],
      the points, averages and deviations handed to the scorer as [Q].
      Rounding of binary floating point is not modelled.
    - A Python exception is an explicit result ([Raise]); code that can
      raise lives in the [outcome] monad.  The scorer divides as Python's
      own numbers do: a zero divisor raises.
    - [datetime.today()], the statistics API and the display are the
      outside world: the clock is an argument, the API is an oracle whose
      requests are logged, the display is a list of emitted events.
    - The [st.cache_data] decorators memoise results and are transparent
      to a single run; the functions are modelled by their bodies. *)

From Stdlib Require Import ZArith QArith Qabs Lqa Ascii String List Lia.
From stdpp Require Import base option list strings gmap sorting.

Local Open Scope Z_scope.

(** ** Exceptions *)

Inductive PyExc : Type :=
| ZeroDivisionError
| ValueError
| IndexError
| KeyError
| OtherException (class_name : string).

Inductive outcome (A : Type) : Type :=
| Return (a : A)
| Raise (e : PyExc).
Arguments Return {A} a.
Arguments Raise {A} e.

#[global] Instance outcome_ret : MRet outcome := fun A a => Return a.
#[global] Instance outcome_bind : MBind outcome := fun A B f m =>
  match m with
  | Return a => f a
  | Raise e => Raise e
  end.

(** ** The matchup scorer (source lines 67-88) *)

Module Scorer.

Local Open Scope Q_scope.

(** Comparisons written in the direction the source writes them. *)
Definition Qgeb (x y : Q) : bool := Qle_bool y x.
Definition Qleb (x y : Q) : bool := Qle_bool x y.
Infix ">=?" := Qgeb (at level 70, no associativity) : Q_scope.
Infix "<=?" := Qleb (at level 70, no associativity) : Q_scope.

(** Python's [/]: a zero divisor raises. *)
Definition truediv (a b : Q) : outcome Q :=
  if Qeq_bool b 0 then Raise ZeroDivisionError else Return (a / b).

(** [matchup_multiplier(pts_allowed, avg, std)]. *)
Definition matchup_multiplier (pts_allowed avg std : Q) : outcome Q :=
  z ← truediv (pts_allowed - avg) std;
  if z >=? 1.0 then Return 1.25
  else if z >=? 0.5 then Return 1.15
  else if z <=? -1.0 then Return 0.85
  else if z <=? -0.5 then Return 0.75
  else Return 1.00.

(** The conditional of lines 69-78 on its own, as a function of the
    z-score. *)
Definition branch_of (z : Q) : Q :=
  if z >=? 1.0 then 1.25
  else if z >=? 0.5 then 1.15
  else if z <=? -1.0 then 0.85
  else if z <=? -0.5 then 0.75
  else 1.00.

(** The band table of section 4.1 of the specification, read top to
    bottom, first match wins.  The last row is the default of the model:
    the five conditions of the table cover every rational. *)
Definition band_table (z : Q) : Q :=
  if Qle_bool 1.0 z then 1.25
  else if Qle_bool 0.5 z && negb (Qle_bool 1.0 z) then 1.15
  else if negb (Qle_bool z (-0.5)) && negb (Qle_bool 0.5 z) then 1.00
  else if negb (Qle_bool z (-1.0)) && Qle_bool z (-0.5) then 0.75
  else 0.85.

(** One row of the pivoted defence-versus-position table. *)
Record DvpRow : Type := mkDvpRow {
  TEAM_NAME : string;
  Guard_Pts_Allowed : Q;
  Forward_Pts_Allowed : Q;
  Center_Pts_Allowed : Q
}.

(** [get_matchup_score(row, slot, guard_avg, ..., center_std)]. *)
Definition get_matchup_score (row : DvpRow) (slot : string)
    (guard_avg guard_std forward_avg forward_std center_avg center_std : Q)
    : outcome Q :=
  if bool_decide (slot ∈ ["PG"; "SG"]%string) then
    matchup_multiplier (Guard_Pts_Allowed row) guard_avg guard_std
  else if bool_decide (slot ∈ ["SF"; "PF"]%string) then
    matchup_multiplier (Forward_Pts_Allowed row) forward_avg forward_std
  else if bool_decide (slot = "C"%string) then
    matchup_multiplier (Center_Pts_Allowed row) center_avg center_std
  else Return 1.00.

End Scorer.

(** ** Python string and integer primitives used by the module *)

Module Py.

(** [sub in s] on strings: substring search. *)
Fixpoint contains (sub s : string) : bool :=
  String.prefix sub s ||
  match s with
  | EmptyString => false
  | String _ rest => contains sub rest
  end.

Fixpoint take (n : nat) (s : string) : string :=
  match n, s with
  | S k, String c rest => String c (take k rest)
  | _, _ => EmptyString
  end.

Fixpoint drop (n : nat) (s : string) : string :=
  match n, s with
  | S k, String _ rest => drop k rest
  | _, _ => s
  end.

(** Resolution of one slice bound against a sequence of length [len]:
    a negative bound counts from the end, and both are clamped. *)
Definition slice_bound (len i : Z) : nat :=
  Z.to_nat (if i <? 0 then Z.max (len + i) 0 else Z.min i len).

(** [s[:j]] *)
Definition slice_to (s : string) (j : Z) : string :=
  take (slice_bound (Z.of_nat (String.length s)) j) s.

(** [s[i:]] *)
Definition slice_from (s : string) (i : Z) : string :=
  drop (slice_bound (Z.of_nat (String.length s)) i) s.

Definition digit (d : Z) : ascii := ascii_of_nat (48 + Z.to_nat d).

Fixpoint digits (fuel : nat) (n : Z) : string :=
  match fuel with
  | O => EmptyString
  | S fuel' =>
      if n <? 10 then String (digit n) EmptyString
      else digits fuel' (n / 10) +:+ String (digit (n mod 10)) EmptyString
  end.

(** [str(n)] for an integer: decimal digits, a minus sign when negative. *)
Definition str (n : Z) : string :=
  if n <? 0 then String "-" (digits (S (Z.to_nat (- n))) (- n))
  else digits (S (Z.to_nat n)) n.

Definition digit_value (c : ascii) : option Z :=
  let k := Z.of_nat (nat_of_ascii c) in
  if (48 <=? k) && (k <=? 57) then Some (k - 48) else None.

Fixpoint parse_digits (acc : Z) (s : string) : option Z :=
  match s with
  | EmptyString => Some acc
  | String c rest =>
      match digit_value c with
      | Some d => parse_digits (10 * acc + d) rest
      | None => None
      end
  end.

Definition parse_nonempty (s : string) : option Z :=
  match s with
  | EmptyString => None
  | _ => parse_digits 0 s
  end.

(** [int(s)] on a string of ASCII digits with an optional sign; anything
    else raises [ValueError].  (Python also accepts surrounding blanks
    and single underscores between digits; the strings parsed here are
    built from digits and ["-"] only.) *)
Definition int (s : string) : outcome Z :=
  let r :=
    match s with
    | String "-" rest => Z.opp <$> parse_nonempty rest
    | String "+" rest => parse_nonempty rest
    | _ => parse_nonempty s
    end in
  match r with
  | Some n => Return n
  | None => Raise ValueError
  end.

(** [s.split(" ")[0]]: the text before the first blank (the whole string
    when it has none; [split] never returns an empty list). *)
Fixpoint first_field (s : string) : string :=
  match s with
  | EmptyString => EmptyString
  | String c rest =>
      if Ascii.eqb c " " then EmptyString else String c (first_field rest)
  end.

(** The characters of a string, for statements about its content. *)
Definition has_char (c : ascii) (s : string) : Prop :=
  In c (list_ascii_of_string s).

(** The last two characters of a string (all of it when shorter),
    defined without slices. *)
Fixpoint last_two_chars (s : string) : string :=
  match s with
  | EmptyString => EmptyString
  | String _ rest =>
      if (2 <=? String.length rest)%nat then last_two_chars rest else s
  end.

(** The last two decimal digits of a number, tens first. *)
Definition two_digits (n : Z) : string :=
  String (digit ((n / 10) mod 10)) (String (digit (n mod 10)) EmptyString).

(** [s.lower()] on ASCII letters. *)
Definition lower_char (c : ascii) : ascii :=
  let k := nat_of_ascii c in
  if (65 <=? k)%nat && (k <=? 90)%nat then ascii_of_nat (k + 32) else c.

Fixpoint lower (s : string) : string :=
  match s with
  | EmptyString => EmptyString
  | String c rest => String (lower_char c) (lower rest)
  end.

End Py.

(** ** Season strings (source lines 8-17) and the game log (lines 30-41) *)

(** What the module reads of [datetime.today()] and of a game date. *)
Record date : Type := mkDate { year : Z; month : Z; day : Z }.

(** [get_season_string()], with the clock reading as its argument. *)
Definition get_season_string (today : date) : string :=
  let '(start_year, end_year) :=
    if month today >=? 10 then (year today, year today + 1)
    else (year today - 1, year today) in
  Py.str start_year +:+ "-" +:+ Py.slice_from (Py.str end_year) (-2).

(** The derived string of line 33:
    [f"{int(current_season[:4]) - 1}-{current_season[:2]}"]. *)
Definition previous_season_of (current_season : string) : outcome string :=
  y ← Py.int (Py.slice_to current_season 4);
  Return (Py.str (y - 1) +:+ "-" +:+ Py.slice_to current_season 2).

(** ** Slot simplification (source lines 90-98) *)

Definition simplify_slot (position : string) : string :=
  if Py.contains "G" position then "PG"
  else if Py.contains "F" position then "SF"
  else if Py.contains "C" position then "C"
  else "PG".

(** ** Frames *)

(** One row of a player's game log, with the columns the module keeps. *)
Record GameRecord : Type := mkGame {
  GAME_DATE : date;
  MATCHUP : string;
  PTS : Z;
  REB : Z;
  AST : Z;
  MIN : Z
}.

(** The game-log frame.  [stat_chart] writes an [OverLine] column into
    the frame it is given; the column is absent until then. *)
Record GameFrame : Type := mkFrame {
  rows : list GameRecord;
  OverLine : option (list bool)
}.

(** [df[stat]] for one of the four statistics, the only column names
    the module selects this way; another name raises [KeyError]. *)
Definition column (df : GameFrame) (stat : string) : outcome (list Z) :=
  if bool_decide (stat = "PTS"%string) then Return (PTS <$> rows df)
  else if bool_decide (stat = "REB"%string) then Return (REB <$> rows df)
  else if bool_decide (stat = "AST"%string) then Return (AST <$> rows df)
  else if bool_decide (stat = "MIN"%string) then Return (MIN <$> rows df)
  else Raise KeyError.

(** One row of a league defensive-statistics answer, and the same row
    after line 55 has tagged it with its position group. *)
Record TeamStats : Type := mkTeamStats { team : string; OPP_PTS : Q }.
Record PositionStats : Type := mkPositionStats {
  stats_row : TeamStats;
  Position : string
}.

(** ** The outside world *)

(** The statistics client: the identifiers of the players matching a
    name, the POSITION column of a player's information, a season's game
    log, the league's statistics for a measure type, a per mode, a
    position group and a season.  An endpoint may fail with an exception
    of its own. *)
Record NbaApi : Type := mkApi {
  find_players_by_full_name : string -> list Z;
  CommonPlayerInfo : Z -> outcome (list string);
  PlayerGameLog : Z -> string -> outcome (list GameRecord);
  LeagueDashTeamStats :
    string -> string -> string -> string -> outcome (list TeamStats)
}.

(** The frame library's aggregate operations, taken as they are:
    [pivot] stands for lines 58-64 (pivot on team and position, column
    renaming), [mean] and [std] for the column statistics of lines
    188-193 (the standard deviation is a square root and has no rational
    model). *)
Record Pandas : Type := mkPandas {
  pivot : list PositionStats -> outcome (list Scorer.DvpRow);
  mean : list Q -> Q;
  std : list Q -> Q
}.

Inductive Color : Type := green | red.

(** What [stat_chart] draws: one bar per game coloured by the
    [OverLine] flag, the dashed rule at the prop line, the top of the
    y axis ([None] when the column is empty and has no maximum). *)
Record Chart : Type := mkChart {
  bars : list (date * Z * Color);
  rule : Z;
  y_max : option Q;
  title : string
}.

(** What a run does to the outside world, in order. *)
Inductive Effect : Type :=
| request_CommonPlayerInfo (player_id : Z)
| request_PlayerGameLog (player_id : Z) (season : string)
| request_LeagueDashTeamStats
    (measure_type_detailed_defense per_mode_detailed
     player_position_abbreviation_nullable season : string)
| st_error (msg : string) (e : option PyExc)
| st_warning (msg : string)
| st_metric (label : string) (value : Q)
| st_image (url caption : string) (width : Z)
| st_success (msg : string)
| st_dataframe (df : GameFrame)
| st_markdown (body : string)
| st_altair_chart (c : Chart)
| st_caption (pct : option Q) (line : Z) (stat : string).

(** A computation that may raise and that leaves a trace of effects. *)
Record App (A : Type) : Type := mkApp { result : outcome A; trace : list Effect }.
Arguments mkApp {A} result trace.
Arguments result {A} _.
Arguments trace {A} _.

#[global] Instance App_ret : MRet App := fun A a => mkApp (Return a) [].
#[global] Instance App_bind : MBind App := fun A B f m =>
  match result m with
  | Return a => mkApp (result (f a)) (trace m ++ trace (f a))
  | Raise e => mkApp (Raise e) (trace m)
  end.

Definition emit (e : Effect) : App unit := mkApp (Return tt) [e].
Definition lift {A} (r : outcome A) : App A := mkApp r [].
Definition call {A} (e : Effect) (answer : outcome A) : App A := mkApp answer [e].

(** [try: body except Exception as e: handler(e)] *)
Definition try_except {A} (body : App A) (handler : PyExc -> App A) : App A :=
  match result body with
  | Return a => body
  | Raise e => mkApp (result (handler e)) (trace body ++ trace (handler e))
  end.

(** [for x in xs: body(x)], threading the loop's state. *)
Fixpoint for_each {X S} (xs : list X) (body : X -> S -> App S) (s : S) : App S :=
  match xs with
  | [] => mret s
  | x :: rest => s' ← body x s; for_each rest body s'
  end.

(** ** The cached fetchers (source lines 20-65) *)

(** [get_player_id(name)]: the first match, [None] without one. *)
Definition get_player_id (api : NbaApi) (name : string) : option Z :=
  head (find_players_by_full_name api name).

(** [get_player_position(player_id)]: [info.loc[0, "POSITION"]]. *)
Definition get_player_position (api : NbaApi) (player_id : Z) : App string :=
  info ← call (request_CommonPlayerInfo player_id) (CommonPlayerInfo api player_id);
  match info with
  | position :: _ => mret position
  | [] => lift (Raise KeyError)
  end.

Definition date_leb (a b : date) : bool :=
  (year a <? year b)
  || ((year a =? year b)
      && ((month a <? month b) || ((month a =? month b) && (day a <=? day b)))).

(** [sort_values("GAME_DATE", ascending=False)] *)
Definition sort_values_desc (df : list GameRecord) : list GameRecord :=
  merge_sort (fun g h => Is_true (date_leb (GAME_DATE h) (GAME_DATE g))) df.

(** [get_last_10_games(player_id)] *)
Definition get_last_10_games (api : NbaApi) (today : date) (player_id : Z)
    : App GameFrame :=
  let current_season := get_season_string today in
  previous_season ← lift (previous_season_of current_season);
  logs_current ← call (request_PlayerGameLog player_id current_season)
                      (PlayerGameLog api player_id current_season);
  logs_previous ← call (request_PlayerGameLog player_id previous_season)
                       (PlayerGameLog api player_id previous_season);
  let all_logs := logs_current ++ logs_previous in
  let all_logs := sort_values_desc all_logs in
  mret (mkFrame (take 10 all_logs) None).

Definition position_groups : list string := ["G"; "F"; "C"]%string.

(** [get_dvp_table()] *)
Definition get_dvp_table (api : NbaApi) (pd : Pandas) : App (list Scorer.DvpRow) :=
  dfs ← for_each position_groups (fun pos dfs =>
           df ← call (request_LeagueDashTeamStats "Opponent" "PerGame" pos "2024-25")
                     (LeagueDashTeamStats api "Opponent" "PerGame" pos "2024-25");
           mret (dfs ++ [map (fun r => mkPositionStats r pos) df])) [];
  let df_all := concat dfs in
  lift (pivot pd df_all).

(** ** Charts and percentages (source lines 125-170) *)

Definition column_max (values : list Z) : option Z :=
  match values with
  | [] => None
  | v :: rest => Some (fold_left Z.max rest v)
  end.

Definition bar (g : GameRecord) (v : Z) (over : bool) : date * Z * Color :=
  (GAME_DATE g, v, if over then green else red).

Fixpoint zip3_bars (gs : list GameRecord) (vs : list Z) (os : list bool)
    : list (date * Z * Color) :=
  match gs, vs, os with
  | g :: gs', v :: vs', o :: os' => bar g v o :: zip3_bars gs' vs' os'
  | _, _, _ => []
  end.

(** [stat_chart(df, stat, line_value)]: the chart, and the frame as the
    call leaves it (with its [OverLine] column rewritten). *)
Definition stat_chart (df : GameFrame) (stat : string) (line_value : Z)
    : outcome (Chart * GameFrame) :=
  values ← column df stat;
  let over := (fun v => v >? line_value) <$> values in
  let df := mkFrame (rows df) (Some over) in
  let max_val := column_max values in
  let y_max := (fun m => (inject_Z m * 1.2)%Q) <$> max_val in
  Return (mkChart (zip3_bars (rows df) values over) line_value y_max
                  (stat +:+ " over Last 10 Games"), df).

(** [pct_above(df, stat, line)].  The count is a numpy integer: divided
    by a zero length it is not a number ([None]) rather than an
    exception. *)
Definition pct_above (df : GameFrame) (stat : string) (line : Z)
    : outcome (option Q) :=
  values ← column df stat;
  let count := length (filter (fun v => Is_true (v >? line)) values) in
  let n := length (rows df) in
  Return (if (n =? 0)%nat then None
          else Some (inject_Z (Z.of_nat count) / inject_Z (Z.of_nat n) * 100)%Q).

(** ** The button handler (source lines 105-123 and 172-275) *)

Local Open Scope string_scope.

(** The choices of the opponent select box, as the source lists them
    (the box shows them sorted). *)
Definition team_abbrs : list string :=
  [
    "ATL"; "BOS"; "BKN"; "CHA"; "CHI"; "CLE"; "DAL"; "DEN"; "DET"; "GSW";
    "HOU"; "IND"; "LAC"; "LAL"; "MEM"; "MIA"; "MIL"; "MIN"; "NOP"; "NYK";
    "OKC"; "ORL"; "PHI"; "PHX"; "POR"; "SAC"; "SAS"; "TOR"; "UTA"; "WAS"
  ].

Definition team_map : gmap string string :=
  list_to_map [
    ("ATL", "Atlanta Hawks"); ("BOS", "Boston Celtics");
    ("BKN", "Brooklyn Nets"); ("CHA", "Charlotte Hornets");
    ("CHI", "Chicago Bulls"); ("CLE", "Cleveland Cavaliers");
    ("DAL", "Dallas Mavericks"); ("DEN", "Denver Nuggets");
    ("DET", "Detroit Pistons"); ("GSW", "Golden State Warriors");
    ("HOU", "Houston Rockets"); ("IND", "Indiana Pacers");
    ("LAC", "LA Clippers"); ("LAL", "Los Angeles Lakers");
    ("MEM", "Memphis Grizzlies"); ("MIA", "Miami Heat");
    ("MIL", "Milwaukee Bucks"); ("MIN", "Minnesota Timberwolves");
    ("NOP", "New Orleans Pelicans"); ("NYK", "New York Knicks");
    ("OKC", "Oklahoma City Thunder"); ("ORL", "Orlando Magic");
    ("PHI", "Philadelphia 76ers"); ("PHX", "Phoenix Suns");
    ("POR", "Portland Trail Blazers"); ("SAC", "Sacramento Kings");
    ("SAS", "San Antonio Spurs"); ("TOR", "Toronto Raptors");
    ("UTA", "Utah Jazz"); ("WAS", "Washington Wizards")
  ].

(** The team identifiers of [team_logos]; each logo address is the
    identifier between a fixed prefix and a fixed suffix. *)
Definition team_logo_ids : list (string * string) :=
  [
    ("ATL", "1610612737"); ("BOS", "1610612738"); ("BKN", "1610612751");
    ("CHA", "1610612766"); ("CHI", "1610612741"); ("CLE", "1610612739");
    ("DAL", "1610612742"); ("DEN", "1610612743"); ("DET", "1610612765");
    ("GSW", "1610612744"); ("HOU", "1610612745"); ("IND", "1610612754");
    ("LAC", "1610612746"); ("LAL", "1610612747"); ("MEM", "1610612763");
    ("MIA", "1610612748"); ("MIL", "1610612749"); ("MIN", "1610612750");
    ("NOP", "1610612740"); ("NYK", "1610612752"); ("OKC", "1610612760");
    ("ORL", "1610612753"); ("PHI", "1610612755"); ("PHX", "1610612756");
    ("POR", "1610612757"); ("SAC", "1610612758"); ("SAS", "1610612759");
    ("TOR", "1610612761"); ("UTA", "1610612762"); ("WAS", "1610612764")
  ].

Definition logo_url (team_id : string) : string :=
  "https://cdn.nba.com/logos/nba/" +:+ team_id +:+ "/global/L/logo.svg".

Definition team_logos : gmap string string :=
  list_to_map (prod_map id logo_url <$> team_logo_ids).

(** Truth value of the result of [dict.get] on strings: [None] and the
    empty string are false. *)
Definition truthy (v : option string) : bool :=
  match v with
  | Some s => negb (String.eqb s "")
  | None => false
  end.

(** [name in dvp_table["TEAM_NAME"].values], for the looked-up name. *)
Definition in_team_names (v : option string) (dvp_table : list Scorer.DvpRow) : bool :=
  match v with
  | Some name => bool_decide (name ∈ Scorer.TEAM_NAME <$> dvp_table)
  | None => false
  end.

(** [df.iloc[0]] *)
Definition iloc0 {A} (df : list A) : outcome A :=
  match df with
  | r :: _ => Return r
  | [] => Raise IndexError
  end.

(** Lines 187-219: league statistics, opponent lookup, multiplier.  (The
    pictograph that begins the metric's label is left out.) *)
Definition matchup_section (pd : Pandas) (dvp_table : list Scorer.DvpRow)
    (slot opponent_abbr : string) : App unit :=
  let guard_avg := mean pd (Scorer.Guard_Pts_Allowed <$> dvp_table) in
  let guard_std := std pd (Scorer.Guard_Pts_Allowed <$> dvp_table) in
  let forward_avg := mean pd (Scorer.Forward_Pts_Allowed <$> dvp_table) in
  let forward_std := std pd (Scorer.Forward_Pts_Allowed <$> dvp_table) in
  let center_avg := mean pd (Scorer.Center_Pts_Allowed <$> dvp_table) in
  let center_std := std pd (Scorer.Center_Pts_Allowed <$> dvp_table) in
  let team_name := team_map !! opponent_abbr in
  if truthy team_name && in_team_names team_name dvp_table then
    dvp_row ← lift (iloc0 (filter (fun r => Some (Scorer.TEAM_NAME r) = team_name)
                                  dvp_table));
    matchup_score ← lift (Scorer.get_matchup_score dvp_row slot
                            guard_avg guard_std forward_avg forward_std
                            center_avg center_std);
    emit (st_metric "Matchup Multiplier" matchup_score)
  else
    emit (st_warning "Could not find DvP data for selected opponent.").

(** The prop lines of the four number inputs. *)
Record PropLines : Type := mkLines {
  pts_line : Z; reb_line : Z; ast_line : Z; min_line : Z
}.

(** Lines 221-271: pictures, game table, one chart and caption per
    statistic.  The frame is shared by the four [stat_chart] calls. *)
Definition display_section (player_id : Z) (player_name : string)
    (stats_df : GameFrame) (lines : PropLines) : App unit :=
  let headshot_url :=
    "https://cdn.nba.com/headshots/nba/latest/1040x760/"
    +:+ Py.str player_id +:+ ".png" in
  first_game ← lift (iloc0 (rows stats_df));
  let team_abbr := Py.first_field (MATCHUP first_game) in
  emit (st_image headshot_url player_name 200);;
  match team_logos !! team_abbr with
  | Some url => if negb (String.eqb url "")
                then emit (st_image url (team_abbr +:+ " Logo") 100)
                else mret tt
  | None => mret tt
  end;;
  emit (st_success ("Showing last 10 games for " +:+ player_name));;
  emit (st_dataframe stats_df);;
  for_each [("PTS", pts_line lines); ("REB", reb_line lines);
            ("AST", ast_line lines); ("MIN", min_line lines)]
    (fun '(stat, line) stats_df =>
       emit (st_markdown ("### " +:+ stat));;
       '(chart, stats_df) ← lift (stat_chart stats_df stat line);
       emit (st_altair_chart chart);;
       pct ← lift (pct_above stats_df stat line);
       emit (st_caption pct line (Py.lower stat));;
       mret stats_df)
    stats_df;;
  mret tt.

(** The body of the [try] block, lines 179-271. *)
Definition fetch_and_display (api : NbaApi) (pd : Pandas) (today : date)
    (player_id : Z) (player_name opponent_abbr : string) (lines : PropLines)
    : App unit :=
  stats_df ← get_last_10_games api today player_id;
  position ← get_player_position api player_id;
  let slot := simplify_slot position in
  dvp_table ← get_dvp_table api pd;
  matchup_section pd dvp_table slot opponent_abbr;;
  display_section player_id player_name stats_df lines.

(** The whole handler of the "Fetch Stats" button (the spinner and the
    column layout only decorate the page). *)
Definition on_fetch_stats (api : NbaApi) (pd : Pandas) (today : date)
    (player_name opponent_abbr : string) (lines : PropLines) : App unit :=
  match get_player_id api player_name with
  | Some player_id =>
      if (player_id =? 0)%Z then
        emit (st_error "Player not found. Please check the name." None)
      else
        try_except
          (fetch_and_display api pd today player_id player_name opponent_abbr lines)
          (fun e => emit (st_error "Error fetching data: " (Some e)))
  | None => emit (st_error "Player not found. Please check the name." None)
  end.

(** What the source fixes in a league defensive-statistics request;
    other effects are not constrained. *)
Definition league_request_fixed (e : Effect) : Prop :=
  match e with
  | request_LeagueDashTeamStats m p pos season =>
      m = "Opponent" /\ p = "PerGame" /\ pos ∈ position_groups /\ season = "2024-25"
  | _ => True
  end.

(** The [start_year] that lines 11-16 choose for a clock reading. *)
Definition season_start (today : date) : Z :=
  if (month today >=? 10)%Z then year today else (year today - 1)%Z.

(** A request about a player names that player; other effects are not
    constrained. *)
Definition player_request_for (player_id : Z) (e : Effect) : Prop :=
  match e with
  | request_CommonPlayerInfo p => p = player_id
  | request_PlayerGameLog p _ => p = player_id
  | _ => True
  end.

(** Game [g] is at least as recent as game [h]. *)
Definition not_older (g h : GameRecord) : Prop :=
  Is_true (date_leb (GAME_DATE h) (GAME_DATE g)).

(** What the loop of lines 268-271 shows for one statistic, when the
    chart and the percentage are computed from frame [df]. *)
Definition stat_block (df : GameFrame) (stat : string) (line : Z) : list Effect :=
  match stat_chart df stat line, pct_above df stat line with
  | Return (chart, _), Return pct =>
      [st_markdown ("### " +:+ stat); st_altair_chart chart;
       st_caption pct line (Py.lower stat)]
  | _, _ => []
  end.

(** The value [pct_above] computes from a count and a length. *)
Definition percent (count n : nat) : Q :=
  (inject_Z (Z.of_nat count) / inject_Z (Z.of_nat n) * 100)%Q.

(** ** A small world to run the handler in *)

Module Sample.

Local Open Scope Q_scope.

Definition games_2024 : list GameRecord :=
  [ mkGame (mkDate 2024 10 25) "LAL vs. PHX" 21 4 8 35;
    mkGame (mkDate 2024 10 22) "LAL vs. MIN" 16 5 4 35;
    mkGame (mkDate 2024 10 26) "LAL vs. SAC" 32 14 10 34 ].

Definition games_2023 : list GameRecord :=
  [ mkGame (mkDate 2024 4 14) "LAL @ NOP" 20 5 17 38 ].

Definition league (g f c : Q) (pos : string) : list TeamStats :=
  let k := if bool_decide (pos = "G"%string) then g
           else if bool_decide (pos = "F"%string) then f else c in
  [ mkTeamStats "Atlanta Hawks" (k + 3); mkTeamStats "Boston Celtics" (k - 3);
    mkTeamStats "Phoenix Suns" k ].

(** A client that knows one player and three teams, and files the
    earlier games under the key that line 33 derives. *)
Definition api : NbaApi :=
  {| find_players_by_full_name name :=
       if bool_decide (name = "LeBron James"%string) then [2544%Z] else [];
     CommonPlayerInfo _ := Return ["Forward"%string];
     PlayerGameLog _ season :=
       if bool_decide (season = "2024-25"%string) then Return games_2024
       else if bool_decide (season = "2023-20"%string) then Return games_2023
       else Return [];
     LeagueDashTeamStats _ _ pos _ := Return (league 48 45 22 pos) |}.

Definition cell (df : list PositionStats) (name pos : string) : outcome Q :=
  match filter (fun r => team (stats_row r) = name /\ Position r = pos) df with
  | [r] => Return (OPP_PTS (stats_row r))
  | _ => Raise ValueError
  end.

Fixpoint pivot_rows (df : list PositionStats) (names : list string)
    : outcome (list Scorer.DvpRow) :=
  match names with
  | [] => Return []
  | name :: rest =>
      g ← cell df name "G"; f ← cell df name "F"; c ← cell df name "C";
      rows ← pivot_rows df rest;
      Return (Scorer.mkDvpRow name g f c :: rows)
  end.

Definition average (values : list Q) : Q :=
  fold_right Qplus 0 values / inject_Z (Z.of_nat (length values)).

(** A frame library for complete tables.  Its [std] is a stand-in (the
    mean absolute deviation): the real one is a square root. *)
Definition pd : Pandas :=
  {| pivot df := pivot_rows df (remove_dups ((fun r => team (stats_row r)) <$> df));
     mean := average;
     std values := average ((fun v => Qabs (v - average values)) <$> values) |}.

Definition lines : PropLines := mkLines 20 5 5 30.

End Sample.

(** * Properties *)

(** ** The matchup scorer *)

Section ScorerFacts.

Import Scorer.
Local Open Scope Q_scope.

Lemma Qle_bool_spec (x y : Q) : reflect (x <= y) (Qle_bool x y).
Proof.
  destruct (Qle_bool x y) eqn:E; constructor.
  - now apply Qle_bool_iff.
  - intros H. apply Qle_bool_iff in H. congruence.
Qed.

Lemma truediv_nonzero (a b : Q) : ~ b == 0 -> truediv a b = Return (a / b).
Proof.
  intros Hb. unfold truediv.
  destruct (Qeq_bool b 0) eqn:E; [|reflexivity].
  apply Qeq_bool_iff in E. contradiction.
Qed.

Lemma truediv_zero (a b : Q) : b == 0 -> truediv a b = Raise ZeroDivisionError.
Proof.
  intros Hb. unfold truediv. apply Qeq_bool_iff in Hb. now rewrite Hb.
Qed.

Lemma matchup_multiplier_branch (pts_allowed avg std : Q) :
  ~ std == 0 ->
  matchup_multiplier pts_allowed avg std
  = Return (branch_of ((pts_allowed - avg) / std)).
Proof.
  intros Hs. unfold matchup_multiplier, branch_of.
  rewrite (truediv_nonzero _ _ Hs). cbn.
  repeat match goal with |- context [if ?b then _ else _] => destruct b end;
    reflexivity.
Qed.

Ltac split_bands z :=
  unfold branch_of, band_table, Qgeb, Qleb;
  destruct (Qle_bool_spec 1.0 z), (Qle_bool_spec 0.5 z),
           (Qle_bool_spec z (-1.0)), (Qle_bool_spec z (-0.5));
  cbn [andb negb].

Lemma branch_of_band_table (z : Q) : branch_of z = band_table z.
Proof. split_bands z; try reflexivity; exfalso; lra. Qed.

Lemma branch_of_cases (z : Q) :
  (1.0 <= z -> branch_of z = 1.25)
  /\ (0.5 <= z < 1.0 -> branch_of z = 1.15)
  /\ (-0.5 < z < 0.5 -> branch_of z = 1.00)
  /\ (-1.0 < z <= -0.5 -> branch_of z = 0.75)
  /\ (z <= -1.0 -> branch_of z = 0.85).
Proof.
  repeat split; intros H; split_bands z; try reflexivity; exfalso; lra.
Qed.

Lemma branch_of_low_iff (z : Q) : branch_of z = 0.85 <-> z <= -1.0.
Proof.
  split.
  - split_bands z; intros H; try discriminate H; try assumption; exfalso; lra.
  - apply branch_of_cases.
Qed.

Lemma branch_of_mid_low_iff (z : Q) : branch_of z = 0.75 <-> -1.0 < z <= -0.5.
Proof.
  split.
  - split_bands z; intros H; try discriminate H; lra.
  - apply branch_of_cases.
Qed.

(** C1.  For a non-zero deviation the multiplier is the band table of
    section 4.1 applied to z = (pts_allowed - avg) / std: 1.25 from 1.0
    upwards, 1.15 on [0.5, 1.0), 1.00 strictly between -0.5 and 0.5,
    0.75 on (-1.0, -0.5], 0.85 from -1.0 downwards; an input with
    z = 1.2 gives exactly 1.25. *)
Theorem matchup_multiplier_band_table (pts_allowed avg std : Q) :
  ~ std == 0 ->
  let z := (pts_allowed - avg) / std in
  let m := matchup_multiplier pts_allowed avg std in
  m = Return (band_table z)
  /\ (1.0 <= z -> m = Return 1.25)
  /\ (0.5 <= z < 1.0 -> m = Return 1.15)
  /\ (-0.5 < z < 0.5 -> m = Return 1.00)
  /\ (-1.0 < z <= -0.5 -> m = Return 0.75)
  /\ (z <= -1.0 -> m = Return 0.85)
  /\ (z == 1.2 -> m = Return 1.25).
Proof.
  intros Hs z m. subst m.
  rewrite (matchup_multiplier_branch _ _ _ Hs). fold z.
  destruct (branch_of_cases z) as (H1 & H2 & H3 & H4 & H5).
  repeat split; intros; f_equal; auto using branch_of_band_table.
  apply H1. lra.
Qed.

Lemma matchup_multiplier_band_table_witness :
  ~ 10 == 0 /\ matchup_multiplier 112 100 10 = Return 1.25.
Proof.
  assert (Hs : ~ 10 == 0) by (intros H; discriminate H).
  split; [exact Hs|].
  apply (matchup_multiplier_band_table 112 100 10 Hs).
  vm_compute. reflexivity.
Defined.

(** C2 (as the claim states it, refuted).  The claim says that no input
    with a non-zero deviation makes the multiplier 0.85; one standard
    deviation below the average does. *)
Lemma low_branch_reached :
  ~ 10 == 0
  /\ matchup_multiplier 90 100 10 = Return 0.85
  /\ ~ (forall pts_allowed avg std : Q,
          ~ std == 0 -> matchup_multiplier pts_allowed avg std <> Return 0.85).
Proof.
  assert (Hs : ~ 10 == 0) by (intros H; discriminate H).
  split; [exact Hs|]. split; [reflexivity|].
  intros H. now apply (H 90 100 10 Hs).
Qed.

(** C2 (amended).  The source tests [z <= -1.0] before [z <= -0.5], so
    the branch returning 0.85 is reachable: for a non-zero deviation the
    multiplier is 0.85 exactly when z <= -1.0, and 0.75 exactly when
    -1.0 < z <= -0.5. *)
Theorem matchup_multiplier_low_branch (pts_allowed avg std : Q) :
  ~ std == 0 ->
  let z := (pts_allowed - avg) / std in
  (matchup_multiplier pts_allowed avg std = Return 0.85 <-> z <= -1.0)
  /\ (matchup_multiplier pts_allowed avg std = Return 0.75 <-> -1.0 < z <= -0.5).
Proof.
  intros Hs z. rewrite (matchup_multiplier_branch _ _ _ Hs). fold z.
  split; (split; [intros H; injection H as H | intros H; f_equal]).
  - now apply branch_of_low_iff.
  - now apply branch_of_low_iff.
  - now apply branch_of_mid_low_iff.
  - now apply branch_of_mid_low_iff.
Qed.

Lemma matchup_multiplier_low_branch_witness :
  ~ 10 == 0
  /\ matchup_multiplier 85 100 10 = Return 0.85
  /\ matchup_multiplier 93 100 10 = Return 0.75.
Proof.
  assert (Hs : ~ 10 == 0) by (intros H; discriminate H).
  split; [exact Hs|]. split.
  - apply (matchup_multiplier_low_branch 85 100 10 Hs). vm_compute. discriminate.
  - apply (matchup_multiplier_low_branch 93 100 10 Hs). vm_compute.
    split; [reflexivity | discriminate].
Defined.

(** C3 (the code at the failing input).  One standard deviation above
    the average gives 1.25, one below gives 0.85: the distances to 1.00
    are 0.25 and 0.15.  Three quarters of a deviation give 1.15 and
    0.75: distances 0.15 and 0.25. *)
Theorem matchup_multiplier_asymmetric :
  matchup_multiplier (100 + 1 * 10) 100 10 = Return 1.25
  /\ matchup_multiplier (100 - 1 * 10) 100 10 = Return 0.85
  /\ ~ 1.25 - 1.00 == 1.00 - 0.85
  /\ matchup_multiplier (100 + 0.75 * 10) 100 10 = Return 1.15
  /\ matchup_multiplier (100 - 0.75 * 10) 100 10 = Return 0.75
  /\ ~ 1.15 - 1.00 == 1.00 - 0.75.
Proof.
  repeat split; try reflexivity; intros H; discriminate H.
Qed.

Lemma branch_of_proper (x y : Q) : x == y -> branch_of x = branch_of y.
Proof.
  intros H. unfold branch_of, Qgeb, Qleb.
  assert (E1 : Qle_bool 1.0 x = Qle_bool 1.0 y) by now rewrite H.
  assert (E2 : Qle_bool 0.5 x = Qle_bool 0.5 y) by now rewrite H.
  assert (E3 : Qle_bool x (-1.0) = Qle_bool y (-1.0)) by now rewrite H.
  assert (E4 : Qle_bool x (-0.5) = Qle_bool y (-0.5)) by now rewrite H.
  now rewrite E1, E2, E3, E4.
Qed.

(** Around the average the code is symmetric only inside the middle
    band: d standard deviations above and below give multipliers at
    equal distances from 1.00 exactly when d < 0.5. *)
Lemma matchup_multiplier_symmetric_iff (avg std d : Q) :
  0 < std -> 0 <= d ->
  exists up down : Q,
    matchup_multiplier (avg + d * std) avg std = Return up
    /\ matchup_multiplier (avg - d * std) avg std = Return down
    /\ (up - 1.00 == 1.00 - down <-> d < 0.5).
Proof.
  intros Hs Hd.
  assert (Hs' : ~ std == 0)
    by (intros E; rewrite E in Hs; now apply Qlt_irrefl in Hs).
  rewrite !matchup_multiplier_branch by exact Hs'.
  rewrite (branch_of_proper ((avg + d * std - avg) / std) d) by (field; exact Hs').
  rewrite (branch_of_proper ((avg - d * std - avg) / std) (- d)) by (field; exact Hs').
  eexists _, _. split; [reflexivity|]. split; [reflexivity|].
  destruct (branch_of_cases d) as (U1 & U2 & U3 & _).
  destruct (branch_of_cases (- d)) as (_ & _ & D3 & D4 & D5).
  destruct (Qlt_le_dec d 0.5) as [Hlt|Hge].
  - rewrite U3, D3 by lra. split; [intros _; exact Hlt | intros _; reflexivity].
  - destruct (Qlt_le_dec d 1.0) as [Hlt1|Hge1].
    + rewrite U2, D4 by lra. split; [intros H; discriminate H | lra].
    + rewrite U1, D5 by lra. split; [intros H; discriminate H | lra].
Qed.

(** C6.  The division comes first and is not guarded: with a zero
    deviation the multiplier raises the division error whatever the
    other two arguments are, and with a non-zero one it returns. *)
Theorem matchup_multiplier_zero_std (pts_allowed avg std : Q) :
  (std == 0 -> matchup_multiplier pts_allowed avg std = Raise ZeroDivisionError)
  /\ (~ std == 0 -> exists m, matchup_multiplier pts_allowed avg std = Return m).
Proof.
  split; intros Hs.
  - unfold matchup_multiplier. now rewrite (truediv_zero _ _ Hs).
  - eexists. now apply matchup_multiplier_branch.
Qed.

Lemma matchup_multiplier_zero_std_witness :
  (0 # 7) == 0
  /\ matchup_multiplier 112 100 (0 # 7) = Raise ZeroDivisionError
  /\ ~ 10 == 0
  /\ exists m, matchup_multiplier 112 100 10 = Return m.
Proof.
  assert (H0 : (0 # 7) == 0) by reflexivity.
  assert (Hs : ~ 10 == 0) by (intros H; discriminate H).
  destruct (matchup_multiplier_zero_std 112 100 (0 # 7)) as [Hz _].
  destruct (matchup_multiplier_zero_std 112 100 10) as [_ Hn].
  split; [exact H0|]. split; [exact (Hz H0)|]. split; [exact Hs|]. exact (Hn Hs).
Defined.

End ScorerFacts.

(** ** Strings and decimal numerals *)

Section PyFacts.

Import Py.
Local Open Scope Z_scope.

Lemma contains_char (c : ascii) (s : string) :
  contains (String c EmptyString) s = true <-> has_char c s.
Proof.
  unfold has_char. induction s as [|a s IH]; cbn.
  - split; [discriminate | tauto].
  - destruct (ascii_dec c a) as [->|Hne].
    + replace (String.prefix EmptyString s) with true by (now destruct s).
      cbn. tauto.
    + cbn. rewrite IH. split; [tauto | intros [E|H]; [congruence | exact H]].
Qed.

Lemma contains_char_false (c : ascii) (s : string) :
  contains (String c EmptyString) s = false <-> ~ has_char c s.
Proof.
  rewrite <- contains_char. destruct (contains _ s); split; congruence.
Qed.

Lemma append_cons (a : ascii) (s t : string) :
  String a s +:+ t = String a (s +:+ t).
Proof. reflexivity. Qed.

Lemma append_assoc (s t u : string) : (s +:+ t) +:+ u = s +:+ (t +:+ u).
Proof.
  induction s as [|a s IH]; [reflexivity|].
  now rewrite !append_cons, IH.
Qed.

Lemma length_append (s t : string) :
  String.length (s +:+ t) = (String.length s + String.length t)%nat.
Proof.
  induction s as [|a s IH]; [reflexivity|].
  rewrite append_cons. cbn [String.length]. now rewrite IH.
Qed.

Lemma digits_fuel (f1 : nat) : forall (f2 : nat) (n : Z),
  0 <= n -> (Z.to_nat n < f1)%nat -> (Z.to_nat n < f2)%nat ->
  digits f1 n = digits f2 n.
Proof.
  induction f1 as [|f1 IH]; intros f2 n Hn H1 H2; [lia|].
  destruct f2 as [|f2]; [lia|]. cbn [digits].
  destruct (n <? 10) eqn:E; [reflexivity|].
  apply Z.ltb_ge in E.
  assert (0 <= n / 10 < n) by (split; [apply Z.div_pos | apply Z.div_lt]; lia).
  rewrite (IH f2); [reflexivity | lia..].
Qed.

Lemma str_small (n : Z) : 0 <= n < 10 -> str n = String (digit n) EmptyString.
Proof.
  intros Hn. unfold str. destruct (n <? 0) eqn:E; [apply Z.ltb_lt in E; lia|].
  cbn [digits]. destruct (n <? 10) eqn:E'; [reflexivity|].
  apply Z.ltb_ge in E'. lia.
Qed.

Lemma str_step (n : Z) :
  10 <= n -> str n = str (n / 10) +:+ String (digit (n mod 10)) EmptyString.
Proof.
  intros Hn. unfold str.
  assert (0 <= n / 10 < n) by (split; [apply Z.div_pos | apply Z.div_lt]; lia).
  destruct (n <? 0) eqn:E; [apply Z.ltb_lt in E; lia|].
  destruct (n / 10 <? 0) eqn:E0; [apply Z.ltb_lt in E0; lia|].
  change (digits (S (Z.to_nat n)) n)
    with (if n <? 10 then String (digit n) EmptyString
          else digits (Z.to_nat n) (n / 10)
               +:+ String (digit (n mod 10)) EmptyString).
  destruct (n <? 10) eqn:E'; [apply Z.ltb_lt in E'; lia|].
  f_equal. apply digits_fuel; lia.
Qed.

Lemma str_ends_two_digits (n : Z) :
  10 <= n -> exists p, str n = p +:+ two_digits n.
Proof.
  intros Hn. rewrite (str_step n Hn).
  assert (0 <= n / 10) by (apply Z.div_pos; lia).
  destruct (Z_lt_le_dec (n / 10) 10) as [Hs|Hl].
  - exists EmptyString. rewrite str_small by lia. unfold two_digits.
    rewrite (Z.mod_small (n / 10) 10) by lia. reflexivity.
  - exists (str (n / 10 / 10)). rewrite (str_step (n / 10) Hl).
    unfold two_digits. now rewrite append_assoc.
Qed.

Lemma str_four_digits (n : Z) :
  1000 <= n <= 9999 ->
  str n = two_digits (n / 100) +:+ two_digits n.
Proof.
  intros Hn.
  assert (E1 : n / 10 / 10 = n / 100) by (now rewrite Z.div_div by lia).
  assert (E2 : n / 100 / 10 = n / 1000) by (now rewrite Z.div_div by lia).
  assert (100 <= n / 10) by (apply Z.div_le_lower_bound; lia).
  assert (10 <= n / 100) by (apply Z.div_le_lower_bound; lia).
  assert (1 <= n / 1000) by (apply Z.div_le_lower_bound; lia).
  assert (n / 1000 < 10) by (apply Z.div_lt_upper_bound; lia).
  rewrite (str_step n) by lia. rewrite (str_step (n / 10)) by lia.
  rewrite E1. rewrite (str_step (n / 100)) by lia. rewrite E2.
  rewrite str_small by lia. unfold two_digits.
  rewrite E2, (Z.mod_small (n / 1000) 10) by lia. reflexivity.
Qed.

Lemma drop_append (p u : string) : drop (String.length p) (p +:+ u) = u.
Proof.
  induction p as [|a p IH]; [now destruct u|].
  rewrite append_cons. exact IH.
Qed.

Lemma slice_from_last_two (p : string) (a b : ascii) :
  slice_from (p +:+ String a (String b EmptyString)) (-2)
  = String a (String b EmptyString).
Proof.
  unfold slice_from, slice_bound. rewrite length_append. cbn [String.length].
  replace (Z.to_nat _) with (String.length p).
  - apply drop_append.
  - destruct (-2 <? 0) eqn:E; [lia | apply Z.ltb_ge in E; lia].
Qed.

Lemma last_two_chars_append (p : string) (a b : ascii) :
  last_two_chars (p +:+ String a (String b EmptyString))
  = String a (String b EmptyString).
Proof.
  induction p as [|c p IH]; [reflexivity|].
  rewrite append_cons. cbn [last_two_chars].
  rewrite length_append. cbn [String.length].
  replace (2 <=? _)%nat with true by (symmetry; apply Nat.leb_le; lia).
  exact IH.
Qed.

Lemma slice_from_last_two_chars (s : string) :
  slice_from s (-2) = last_two_chars s.
Proof.
  destruct s as [|a [|b s]]; [reflexivity..|].
  assert (exists p x y, String a (String b s) = p +:+ String x (String y EmptyString))
    as (p & x & y & ->).
  { clear. revert a b. induction s as [|c s IH]; intros a b.
    - now exists EmptyString, a, b.
    - destruct (IH b c) as (p & x & y & E). exists (String a p), x, y.
      rewrite append_cons. now rewrite E. }
  now rewrite slice_from_last_two, last_two_chars_append.
Qed.

Lemma slice_to_take (s : string) (k : nat) :
  (k <= String.length s)%nat -> slice_to s (Z.of_nat k) = take k s.
Proof.
  intros Hk. unfold slice_to, slice_bound.
  destruct (Z.of_nat k <? 0) eqn:E; [apply Z.ltb_lt in E; lia|].
  f_equal. lia.
Qed.

Lemma digit_cases (d : Z) :
  0 <= d < 10 ->
  d = 0 \/ d = 1 \/ d = 2 \/ d = 3 \/ d = 4 \/ d = 5 \/ d = 6 \/ d = 7 \/ d = 8 \/ d = 9.
Proof. lia. Qed.

Lemma digit_value_digit (d : Z) : 0 <= d < 10 -> digit_value (digit d) = Some d.
Proof.
  intros H. destruct (digit_cases d H) as [->|[->|[->|[->|[->|[->|[->|[->|[->| ->]]]]]]]]];
    reflexivity.
Qed.

End PyFacts.

(** ** Slot simplification *)

Section SlotFacts.

Import Py.

(** C4.  The slot depends on the characters of the position string
    only, tested in the order G, F, C: with a G it is PG; without a G
    but with an F it is SF; with neither but with a C it is C;
    otherwise PG.  Two strings with the same characters get the same
    slot, and "Guard-Forward" is PG. *)
Theorem simplify_slot_by_content (position : string) :
  (has_char "G" position -> simplify_slot position = "PG")
  /\ (~ has_char "G" position -> has_char "F" position ->
      simplify_slot position = "SF")
  /\ (~ has_char "G" position -> ~ has_char "F" position ->
      has_char "C" position -> simplify_slot position = "C")
  /\ (~ has_char "G" position -> ~ has_char "F" position ->
      ~ has_char "C" position -> simplify_slot position = "PG")
  /\ (forall other : string,
        (forall c, has_char c position <-> has_char c other) ->
        simplify_slot other = simplify_slot position)
  /\ simplify_slot "Guard-Forward" = "PG".
Proof.
  assert (Hc : forall c s t, (forall x, has_char x s <-> has_char x t) ->
               contains (String c EmptyString) t = contains (String c EmptyString) s).
  { intros c s t H.
    destruct (contains (String c EmptyString) s) eqn:E.
    - apply contains_char. apply H. now apply contains_char.
    - apply contains_char_false. rewrite <- H. now apply contains_char_false. }
  unfold simplify_slot. repeat split.
  - intros HG. apply contains_char in HG. now rewrite HG.
  - intros HG HF. apply contains_char_false in HG. apply contains_char in HF.
    now rewrite HG, HF.
  - intros HG HF HC. apply contains_char_false in HG, HF. apply contains_char in HC.
    now rewrite HG, HF, HC.
  - intros HG HF HC. apply contains_char_false in HG, HF, HC.
    now rewrite HG, HF, HC.
  - intros other H.
    now rewrite (Hc "G"%char _ _ H), (Hc "F"%char _ _ H), (Hc "C"%char _ _ H).
Qed.

Lemma simplify_slot_by_content_witness :
  (has_char "G" "Guard" /\ simplify_slot "Guard" = "PG")
  /\ (~ has_char "G" "Forward-Center" /\ has_char "F" "Forward-Center"
      /\ simplify_slot "Forward-Center" = "SF")
  /\ (~ has_char "G" "Center" /\ ~ has_char "F" "Center" /\ has_char "C" "Center"
      /\ simplify_slot "Center" = "C")
  /\ (~ has_char "G" "" /\ ~ has_char "F" "" /\ ~ has_char "C" ""
      /\ simplify_slot "" = "PG")
  /\ ((forall c, has_char c "Forward-Guard" <-> has_char c "Forward-Guard")
      /\ simplify_slot "Forward-Guard" = simplify_slot "Forward-Guard").
Proof.
  assert (Y : forall c s, contains (String c EmptyString) s = true -> has_char c s)
    by (intros c s; apply contains_char).
  assert (N : forall c s, contains (String c EmptyString) s = false -> ~ has_char c s)
    by (intros c s; apply contains_char_false).
  assert (G1 : has_char "G" "Guard") by (now apply Y).
  assert (G2 : ~ has_char "G" "Forward-Center") by (now apply N).
  assert (F2 : has_char "F" "Forward-Center") by (now apply Y).
  assert (G3 : ~ has_char "G" "Center") by (now apply N).
  assert (F3 : ~ has_char "F" "Center") by (now apply N).
  assert (C3 : has_char "C" "Center") by (now apply Y).
  assert (G4 : ~ has_char "G" "") by (now apply N).
  assert (F4 : ~ has_char "F" "") by (now apply N).
  assert (C4 : ~ has_char "C" "") by (now apply N).
  assert (S5 : forall c, has_char c "Forward-Guard" <-> has_char c "Forward-Guard")
    by (intros c; reflexivity).
  destruct (simplify_slot_by_content "Guard") as (H1 & _).
  destruct (simplify_slot_by_content "Forward-Center") as (_ & H2 & _).
  destruct (simplify_slot_by_content "Center") as (_ & _ & H3 & _).
  destruct (simplify_slot_by_content "") as (_ & _ & _ & H4 & _).
  destruct (simplify_slot_by_content "Forward-Guard") as (_ & _ & _ & _ & H5 & _).
  split; [exact (conj G1 (H1 G1))|].
  split; [exact (conj G2 (conj F2 (H2 G2 F2)))|].
  split; [exact (conj G3 (conj F3 (conj C3 (H3 G3 F3 C3))))|].
  split; [exact (conj G4 (conj F4 (conj C4 (H4 G4 F4 C4))))|].
  exact (conj S5 (H5 _ S5)).
Defined.

End SlotFacts.

(** ** Season strings *)

Section SeasonFacts.

Import Py.
Local Open Scope Z_scope.

(** C5.  From October on the season string is the year, a dash and the
    last two digits of the next year; before October it is the previous
    year, a dash and the last two digits of the year.  The last two
    digits are the last two characters of the decimal numeral, which for
    a number from 10 upwards are its tens and units digits. *)
Theorem get_season_string_by_month (today : date) :
  (10 <= month today ->
     get_season_string today
     = str (year today) +:+ "-" +:+ last_two_chars (str (year today + 1))
     /\ (10 <= year today + 1 ->
         get_season_string today
         = str (year today) +:+ "-" +:+ two_digits (year today + 1)))
  /\ (month today < 10 ->
     get_season_string today
     = str (year today - 1) +:+ "-" +:+ last_two_chars (str (year today))
     /\ (10 <= year today ->
         get_season_string today
         = str (year today - 1) +:+ "-" +:+ two_digits (year today))).
Proof.
  unfold get_season_string.
  split; intros Hm.
  - replace (month today >=? 10) with true by (symmetry; apply Z.geb_le; lia).
    split; [now rewrite slice_from_last_two_chars|].
    intros Hy. destruct (str_ends_two_digits _ Hy) as [p ->].
    unfold two_digits. now rewrite slice_from_last_two.
  - replace (month today >=? 10) with false
      by (symmetry; rewrite Z.geb_leb; apply Z.leb_gt; lia).
    split; [now rewrite slice_from_last_two_chars|].
    intros Hy. destruct (str_ends_two_digits _ Hy) as [p ->].
    unfold two_digits. now rewrite slice_from_last_two.
Qed.

Lemma get_season_string_by_month_witness :
  (10 <= month (mkDate 2024 11 3)
   /\ 10 <= year (mkDate 2024 11 3) + 1
   /\ get_season_string (mkDate 2024 11 3) = "2024-25"%string)
  /\ (month (mkDate 2025 3 3) < 10
      /\ 10 <= year (mkDate 2025 3 3)
      /\ get_season_string (mkDate 2025 3 3) = "2024-25"%string).
Proof.
  assert (M1 : 10 <= month (mkDate 2024 11 3)) by (cbn; lia).
  assert (Y1 : 10 <= year (mkDate 2024 11 3) + 1) by (cbn; lia).
  assert (M2 : month (mkDate 2025 3 3) < 10) by (cbn; lia).
  assert (Y2 : 10 <= year (mkDate 2025 3 3)) by (cbn; lia).
  destruct (get_season_string_by_month (mkDate 2024 11 3)) as [H1 _].
  destruct (get_season_string_by_month (mkDate 2025 3 3)) as [_ H2].
  destruct (H1 M1) as [_ H1']. destruct (H2 M2) as [_ H2'].
  split; (split; [assumption | split; [assumption|]]).
  - rewrite (H1' Y1). reflexivity.
  - rewrite (H2' Y2). reflexivity.
Defined.

(** The season's first year, as [get_season_string] chooses it. *)
Lemma season_string_start (today : date) :
  get_season_string today
  = str (if month today >=? 10 then year today else year today - 1)
    +:+ "-" +:+ slice_from
                  (str (if month today >=? 10 then year today + 1 else year today))
                  (-2).
Proof. unfold get_season_string. now destruct (month today >=? 10). Qed.

Lemma digit_bound (n : Z) : 0 <= n mod 10 < 10.
Proof. apply Z.mod_pos_bound. lia. Qed.

Lemma int_four_digits (d3 d2 d1 d0 : Z) :
  0 <= d3 < 10 -> 0 <= d2 < 10 -> 0 <= d1 < 10 -> 0 <= d0 < 10 ->
  int (String (digit d3) (String (digit d2) (String (digit d1)
        (String (digit d0) EmptyString))))
  = Return (1000 * d3 + 100 * d2 + 10 * d1 + d0).
Proof.
  intros H3 H2 H1 H0.
  assert (E : parse_digits 0 (String (digit d3) (String (digit d2) (String (digit d1)
                (String (digit d0) EmptyString))))
              = Some (1000 * d3 + 100 * d2 + 10 * d1 + d0)).
  { cbn [parse_digits]. rewrite !digit_value_digit by assumption. f_equal. lia. }
  destruct (digit_cases d3 H3) as [->|[->|[->|[->|[->|[->|[->|[->|[->| ->]]]]]]]]];
    unfold int; cbn [digit Z.to_nat Pos.to_nat Pos.iter_op Nat.add ascii_of_nat
                     ascii_of_pos Pos.of_nat Pos.of_succ_nat Pos.succ parse_nonempty];
    cbv beta iota; (etransitivity; [|exact (f_equal (fun r => match r with
                                                    | Some n => Return n
                                                    | None => Raise ValueError
                                                    end) E)]); reflexivity.
Qed.

(** Two numbers have the same last two digits when they are congruent
    modulo 100. *)
Lemma two_digits_eq_iff (a b : Z) :
  two_digits a = two_digits b <-> a mod 100 = b mod 100.
Proof.
  unfold two_digits. split.
  - intros H. injection (f_equal (fun s => match s with
                                   | String x (String y _) => (digit_value x, digit_value y)
                                   | _ => (None, None)
                                   end) H).
    rewrite !digit_value_digit by apply digit_bound.
    intros E0 E1. injection E0 as E0. injection E1 as E1.
    revert E0 E1. Z.to_euclidean_division_equations. lia.
  - intros H.
    assert (a / 10 mod 10 = b / 10 mod 10 /\ a mod 10 = b mod 10) as [-> ->]
      by (revert H; Z.to_euclidean_division_equations; lia).
    reflexivity.
Qed.

End SeasonFacts.

(** ** The previous season of the game log *)

Section GameLogFacts.

Import Py.
Local Open Scope Z_scope.

(** C8 (as the claim states it, refuted).  In the 2020-21 season the
    derived string is "2019-20", which is the season string of the year
    before: its suffix is the last two digits of 2020, the end year of
    the previous season. *)
Lemma previous_season_right_in_2020 :
  get_season_string (mkDate 2020 11 1) = "2020-21"%string
  /\ previous_season_of (get_season_string (mkDate 2020 11 1))
     = Return (get_season_string (mkDate 2019 11 1))
  /\ slice_from (get_season_string (mkDate 2019 11 1)) (-2) = two_digits 2020.
Proof. repeat split; reflexivity. Qed.

(** C8 (amended).  When the season's first year Y has four digits, the
    derived previous-season string is the numeral of Y - 1, a dash and
    the first two characters of the current string, which are the
    century digits of Y ("2023-20" for "2024-25"); the second game-log
    request is keyed by that string; and its suffix is the last two
    digits of Y, the previous season's end year, only when the century
    digits of Y equal its last two digits. *)
Theorem previous_season_century_digits (today : date) :
  let Y := if month today >=? 10 then year today else year today - 1 in
  let current_season := get_season_string today in
  let previous_season := str (Y - 1) +:+ "-" +:+ two_digits (Y / 100) in
  1000 <= Y <= 9999 ->
  slice_to current_season 4 = str Y
  /\ slice_to current_season 2 = two_digits (Y / 100)
  /\ previous_season_of current_season
     = Return (str (Y - 1) +:+ "-" +:+ slice_to current_season 2)
  /\ previous_season_of current_season = Return previous_season
  /\ (forall (api : NbaApi) (player_id : Z),
        trace (get_last_10_games api today player_id)
        = request_PlayerGameLog player_id current_season
          :: match PlayerGameLog api player_id current_season with
             | Return _ => [request_PlayerGameLog player_id previous_season]
             | Raise _ => []
             end)
  /\ (two_digits (Y / 100) = two_digits Y <-> Y / 100 = Y mod 100)
  /\ previous_season_of "2024-25" = Return "2023-20"%string.
Proof.
  intros Y current_season previous_season HY.
  assert (H100 : 10 <= Y / 100 < 100)
    by (split; [apply Z.div_le_lower_bound | apply Z.div_lt_upper_bound]; lia).
  assert (Ecur : exists sfx, current_season
            = String (digit ((Y / 100) / 10 mod 10)) (String (digit ((Y / 100) mod 10))
                (String (digit (Y / 10 mod 10)) (String (digit (Y mod 10))
                   (String "-" sfx))))).
  { eexists. unfold current_season. rewrite season_string_start. fold Y.
    rewrite (str_four_digits Y HY). reflexivity. }
  destruct Ecur as [sfx Ecur].
  assert (E4 : slice_to current_season 4 = str Y).
  { rewrite Ecur, (str_four_digits Y HY).
    change 4 with (Z.of_nat 4).
    rewrite slice_to_take by (cbn [String.length]; lia). reflexivity. }
  assert (E2 : slice_to current_season 2 = two_digits (Y / 100)).
  { rewrite Ecur. change 2 with (Z.of_nat 2).
    rewrite slice_to_take by (cbn [String.length]; lia). reflexivity. }
  assert (Eint : int (str Y) = Return Y).
  { rewrite (str_four_digits Y HY). unfold two_digits.
    change (int (String (digit ((Y / 100) / 10 mod 10)) (String (digit ((Y / 100) mod 10))
              (String (digit (Y / 10 mod 10)) (String (digit (Y mod 10)) EmptyString))))
            = Return Y).
    rewrite int_four_digits by apply digit_bound. f_equal.
    Z.to_euclidean_division_equations. lia. }
  assert (Eprev : previous_season_of current_season = Return previous_season).
  { unfold previous_season_of. rewrite E4, Eint, E2. reflexivity. }
  split; [exact E4|]. split; [exact E2|].
  split; [now rewrite Eprev, E2|]. split; [exact Eprev|].
  split; [|split; [|reflexivity]].
  - intros api player_id. unfold get_last_10_games. fold current_season.
    rewrite Eprev. cbn.
    destruct (PlayerGameLog api player_id current_season) as [logs|e]; cbn;
      [|reflexivity].
    now destruct (PlayerGameLog api player_id previous_season).
  - rewrite two_digits_eq_iff. rewrite (Z.mod_small (Y / 100) 100) by lia.
    reflexivity.
Qed.

Lemma previous_season_century_digits_witness :
  1000 <= year (mkDate 2024 11 3) <= 9999
  /\ previous_season_of (get_season_string (mkDate 2024 11 3))
     = Return "2023-20"%string.
Proof.
  assert (HY : 1000 <= year (mkDate 2024 11 3) <= 9999) by (cbn; lia).
  split; [exact HY|].
  destruct (previous_season_century_digits (mkDate 2024 11 3) HY)
    as (_ & _ & _ & H & _).
  rewrite H. reflexivity.
Defined.

End GameLogFacts.

(** ** Traces *)

Section TraceFacts.

Local Open Scope list_scope.
Context {P : Effect -> Prop}.

Lemma trace_bind {A B} (m : App A) (f : A -> App B) :
  trace (m ≫= f)
  = match result m with
    | Return a => trace m ++ trace (f a)
    | Raise _ => trace m
    end.
Proof. unfold mbind, App_bind. now destruct (result m). Qed.

Lemma result_bind {A B} (m : App A) (f : A -> App B) :
  result (m ≫= f)
  = match result m with
    | Return a => result (f a)
    | Raise e => Raise e
    end.
Proof. unfold mbind, App_bind. now destruct (result m). Qed.

Lemma Forall_trace_bind {A B} (m : App A) (f : A -> App B) :
  Forall P (trace m) -> (forall a, Forall P (trace (f a))) ->
  Forall P (trace (m ≫= f)).
Proof.
  intros Hm Hf. rewrite trace_bind. destruct (result m); [|exact Hm].
  apply Forall_app. split; [exact Hm | apply Hf].
Qed.

Lemma Forall_trace_try {A} (body : App A) (handler : PyExc -> App A) :
  Forall P (trace body) -> (forall e, Forall P (trace (handler e))) ->
  Forall P (trace (try_except body handler)).
Proof.
  intros Hb Hh. unfold try_except. destruct (result body); [exact Hb|].
  cbn. apply Forall_app. split; [exact Hb | apply Hh].
Qed.

Lemma Forall_trace_for_each_in {X S} (xs : list X) (body : X -> S -> App S) :
  (forall x s, x ∈ xs -> Forall P (trace (body x s))) ->
  forall s, Forall P (trace (for_each xs body s)).
Proof.
  induction xs as [|x xs IH]; intros Hb s; cbn [for_each].
  - constructor.
  - apply Forall_trace_bind; [apply Hb; left|].
    apply IH. intros y t Hy. apply Hb. now right.
Qed.

Lemma Forall_trace_emit (e : Effect) : P e -> Forall P (trace (emit e)).
Proof. intros H. repeat constructor. exact H. Qed.

Lemma Forall_trace_call {A} (e : Effect) (answer : outcome A) :
  P e -> Forall P (trace (call e answer)).
Proof. intros H. repeat constructor. exact H. Qed.

Lemma Forall_trace_lift {A} (r : outcome A) : Forall P (trace (lift r)).
Proof. constructor. Qed.

Lemma Forall_trace_ret {A} (a : A) : Forall P (trace (mret a : App A)).
Proof. constructor. Qed.

End TraceFacts.

Ltac trace_step :=
  first
    [ apply Forall_trace_bind; [|intros ?]
    | apply Forall_trace_try; [|intros ?]
    | apply Forall_trace_for_each_in; intros ? ? ?
    | apply Forall_trace_emit
    | apply Forall_trace_call
    | apply Forall_trace_lift
    | apply Forall_trace_ret
    | match goal with
      | |- Forall _ (trace (match ?x with _ => _ end)) => destruct x
      | |- Forall _ (trace (let '(_, _) := ?x in _)) => destruct x
      end ].

Ltac solve_league_request :=
  cbn; repeat split; first [assumption | unfold position_groups; set_solver].

(** ** The league defensive statistics *)

Section DvpFacts.

Lemma get_dvp_table_trace (api : NbaApi) (pd : Pandas) :
  Forall league_request_fixed (trace (get_dvp_table api pd)).
Proof.
  unfold get_dvp_table. repeat trace_step; solve_league_request.
Qed.

Lemma on_fetch_stats_trace (api : NbaApi) (pd : Pandas) (today : date)
    (player_name opponent_abbr : string) (lines : PropLines) :
  Forall league_request_fixed
         (trace (on_fetch_stats api pd today player_name opponent_abbr lines)).
Proof.
  unfold on_fetch_stats, fetch_and_display, get_last_10_games,
    get_player_position, matchup_section, display_section.
  repeat first [apply get_dvp_table_trace | trace_step]; exact I.
Qed.

(** C9.  [get_dvp_table] asks for the league's opponent statistics per
    game for the groups G, F and C in that order, each time for the
    season "2024-25": the requests it issues are those three (up to the
    first one that fails), whatever the client, and the function has no
    date among its inputs.  In a run of the handler at any date, every
    league defensive-statistics request is for "2024-25". *)
Theorem get_dvp_table_fixed_season (api : NbaApi) (pd : Pandas) :
  let ask pos := LeagueDashTeamStats api "Opponent" "PerGame" pos "2024-25" in
  let request pos := request_LeagueDashTeamStats "Opponent" "PerGame" pos "2024-25" in
  trace (get_dvp_table api pd)
  = request "G"
    :: match ask "G" with
       | Raise _ => []
       | Return _ =>
           request "F"
           :: match ask "F" with
              | Raise _ => []
              | Return _ => [request "C"]
              end
       end
  /\ ((forall pos, pos ∈ position_groups -> exists df, ask pos = Return df) ->
      trace (get_dvp_table api pd) = request <$> position_groups)
  /\ Forall league_request_fixed (trace (get_dvp_table api pd))
  /\ (forall (today : date) (player_name opponent_abbr : string) (lines : PropLines),
        Forall league_request_fixed
          (trace (on_fetch_stats api pd today player_name opponent_abbr lines))).
Proof.
  intros ask request.
  assert (E : trace (get_dvp_table api pd)
              = request "G"
                :: match ask "G" with
                   | Raise _ => []
                   | Return _ =>
                       request "F"
                       :: match ask "F" with
                          | Raise _ => []
                          | Return _ => [request "C"]
                          end
                   end).
  { subst ask request. unfold get_dvp_table, position_groups.
    cbn [for_each]. cbv beta.
    destruct (LeagueDashTeamStats api "Opponent" "PerGame" "G" "2024-25");
      [|reflexivity].
    destruct (LeagueDashTeamStats api "Opponent" "PerGame" "F" "2024-25");
      [|reflexivity].
    destruct (LeagueDashTeamStats api "Opponent" "PerGame" "C" "2024-25");
      reflexivity. }
  split; [exact E|]. split; [|split].
  - intros H. rewrite E.
    destruct (H "G") as [g ->]; [unfold position_groups; set_solver|].
    destruct (H "F") as [f ->]; [unfold position_groups; set_solver|].
    reflexivity.
  - apply get_dvp_table_trace.
  - intros. apply on_fetch_stats_trace.
Qed.

Lemma get_dvp_table_fixed_season_witness :
  (forall pos, pos ∈ position_groups ->
     exists df, LeagueDashTeamStats Sample.api "Opponent" "PerGame" pos "2024-25"
                = Return df)
  /\ trace (get_dvp_table Sample.api Sample.pd)
     = [request_LeagueDashTeamStats "Opponent" "PerGame" "G" "2024-25";
        request_LeagueDashTeamStats "Opponent" "PerGame" "F" "2024-25";
        request_LeagueDashTeamStats "Opponent" "PerGame" "C" "2024-25"].
Proof.
  assert (H : forall pos, pos ∈ position_groups ->
     exists df, LeagueDashTeamStats Sample.api "Opponent" "PerGame" pos "2024-25"
                = Return df) by (intros pos _; eexists; reflexivity).
  split; [exact H|].
  destruct (get_dvp_table_fixed_season Sample.api Sample.pd) as (_ & E & _).
  exact (E H).
Defined.

End DvpFacts.

(** ** Over the line *)

Section OverLineFacts.

Local Open Scope Z_scope.
Local Open Scope list_scope.

Lemma gtb_strict (v line : Z) : (v >? line) = bool_decide (line < v).
Proof.
  rewrite Z.gtb_ltb. destruct (Z.ltb_spec line v).
  - now rewrite bool_decide_eq_true_2.
  - rewrite bool_decide_eq_false_2; [reflexivity | lia].
Qed.

Lemma column_Return (df : GameFrame) (stat : string) (values : list Z) :
  column df stat = Return values ->
  exists f : GameRecord -> Z, values = f <$> rows df.
Proof.
  unfold column. repeat case_bool_decide; intros Hc; try discriminate Hc;
    injection Hc as <-; eauto.
Qed.

Lemma zip3_bars_map (f : GameRecord -> Z) (o : Z -> bool) (gs : list GameRecord) :
  zip3_bars gs (f <$> gs) (o <$> (f <$> gs))
  = (fun g => bar g (f g) (o (f g))) <$> gs.
Proof. induction gs as [|g gs IH]; cbn; [reflexivity | now rewrite IH]. Qed.

Lemma strict_count_bound (line : Z) (values : list Z) :
  (length (filter (fun v => (line < v)%Z) values)
   + length (filter (fun v => v = line) values) <= length values)%nat.
Proof.
  induction values as [|v values IH]; [reflexivity|].
  rewrite !filter_cons. repeat case_decide; cbn [length]; lia.
Qed.

(** C10.  The [OverLine] flag of [stat_chart] and the count of
    [pct_above] both test [stat > line] strictly: a game whose value
    equals the line is flagged false (and drawn red), and the
    percentage is one hundred times the number of games strictly over
    the line divided by the number of games, so that the games equal to
    the line are not among those counted. *)
Theorem over_line_is_strict (df : GameFrame) (stat : string) (line : Z)
    (values : list Z) :
  column df stat = Return values ->
  exists (chart : Chart) (df' : GameFrame),
    stat_chart df stat line = Return (chart, df')
    /\ rows df' = rows df
    /\ OverLine df' = Some ((fun v => bool_decide (line < v)) <$> values)
    /\ (forall (i : nat) (g : GameRecord),
          rows df !! i = Some g -> values !! i = Some line ->
          ((fun v => bool_decide (line < v)) <$> values) !! i = Some false
          /\ bars chart !! i = Some (GAME_DATE g, line, red))
    /\ pct_above df stat line
       = Return (if decide (rows df = []) then None
                 else Some (inject_Z (Z.of_nat (length (filter (fun v => (line < v)%Z) values)))
                            / inject_Z (Z.of_nat (length values)) * 100)%Q)
    /\ pct_above df' stat line = pct_above df stat line
    /\ (length (filter (fun v => (line < v)%Z) values)
        + length (filter (fun v => v = line) values) <= length values)%nat.
Proof.
  intros Hcol. destruct (column_Return _ _ _ Hcol) as [f Hf].
  unfold stat_chart. rewrite Hcol. cbn [mbind outcome_bind].
  eexists _, _. split; [reflexivity|]. cbn [rows OverLine bars].
  split; [reflexivity|].
  assert (Eflags : (fun v => v >? line) <$> values
                   = (fun v => bool_decide (line < v)) <$> values)
    by (apply list_fmap_ext; intros; apply gtb_strict).
  split; [now rewrite Eflags|]. split; [|split; [|split]].
  - intros i g Hg Hv. split.
    + rewrite list_lookup_fmap, Hv. cbn. now rewrite bool_decide_eq_false_2 by lia.
    + rewrite Hf in Hv |- *. rewrite zip3_bars_map, list_lookup_fmap, Hg. cbn.
      rewrite list_lookup_fmap, Hg in Hv. injection Hv as ->.
      unfold bar. now rewrite gtb_strict, bool_decide_eq_false_2 by lia.
  - unfold pct_above. rewrite Hcol. cbn [mbind outcome_bind]. f_equal.
    assert (El : length values = length (rows df)) by (now rewrite Hf, length_fmap).
    rewrite <- El.
    replace (filter (fun v => Is_true (v >? line)) values)
      with (filter (fun v => line < v) values).
    + destruct (rows df) as [|g gs].
      * now destruct values.
      * destruct values; [discriminate El | reflexivity].
    + apply list_filter_iff. intros v. rewrite gtb_strict.
      now rewrite bool_decide_spec.
  - unfold pct_above, column. reflexivity.
  - apply strict_count_bound.
Qed.

Lemma over_line_is_strict_witness :
  column (mkFrame (Sample.games_2023 ++ Sample.games_2024) None) "PTS"
  = Return [20; 21; 16; 32]
  /\ pct_above (mkFrame (Sample.games_2023 ++ Sample.games_2024) None) "PTS" 20
     = Return (Some (inject_Z 2 / inject_Z 4 * 100)%Q)
  /\ exists chart df',
       stat_chart (mkFrame (Sample.games_2023 ++ Sample.games_2024) None) "PTS" 20
       = Return (chart, df')
       /\ OverLine df' = Some [false; true; false; true]
       /\ bars chart !! 0%nat = Some (mkDate 2024 4 14, 20, red).
Proof.
  assert (Hcol : column (mkFrame (Sample.games_2023 ++ Sample.games_2024) None) "PTS"
                 = Return [20; 21; 16; 32]) by reflexivity.
  destruct (over_line_is_strict _ _ 20 _ Hcol)
    as (chart & df' & Hchart & _ & Hflags & Heq & Hpct & _).
  split; [exact Hcol|]. split; [exact Hpct|].
  exists chart, df'. split; [exact Hchart|]. split; [exact Hflags|].
  exact (proj2 (Heq 0%nat _ eq_refl eq_refl)).
Defined.

End OverLineFacts.

(** ** The opponent without defensive data *)

Section OpponentFacts.

Local Open Scope list_scope.

(** Every abbreviation the select box offers has a team name. *)
Lemma team_abbrs_mapped :
  Forall (fun abbr => is_Some (team_map !! abbr)) team_abbrs.
Proof.
  unfold team_abbrs. repeat (constructor; [eexists; reflexivity|]). constructor.
Qed.

Lemma matchup_section_missing (pd : Pandas) (dvp_table : list Scorer.DvpRow)
    (slot opponent_abbr : string) :
  truthy (team_map !! opponent_abbr)
  && in_team_names (team_map !! opponent_abbr) dvp_table = false ->
  matchup_section pd dvp_table slot opponent_abbr
  = emit (st_warning "Could not find DvP data for selected opponent.").
Proof. intros H. unfold matchup_section. now rewrite H. Qed.

(** C7.  When the selected abbreviation has no entry in [team_map], or
    its team name is not in the TEAM_NAME column of the DvP table, the
    matchup section computes no multiplier: it returns normally and its
    only effect is the warning.  The body of the handler then goes on
    with the display section exactly as it would otherwise: its outcome
    is the display section's, and its trace is the fetches, the
    warning, then the display section's effects. *)
Theorem missing_opponent_warns (pd : Pandas) (dvp_table : list Scorer.DvpRow)
    (slot opponent_abbr : string) :
  (team_map !! opponent_abbr = None
   \/ exists name, team_map !! opponent_abbr = Some name
                   /\ name ∉ Scorer.TEAM_NAME <$> dvp_table) ->
  let warning := st_warning "Could not find DvP data for selected opponent." in
  result (matchup_section pd dvp_table slot opponent_abbr) = Return tt
  /\ trace (matchup_section pd dvp_table slot opponent_abbr) = [warning]
  /\ (forall (api : NbaApi) (today : date) (player_id : Z) (player_name : string)
             (lines : PropLines) (stats_df : GameFrame) (position : string),
        result (get_last_10_games api today player_id) = Return stats_df ->
        result (get_player_position api player_id) = Return position ->
        result (get_dvp_table api pd) = Return dvp_table ->
        result (fetch_and_display api pd today player_id player_name
                                  opponent_abbr lines)
        = result (display_section player_id player_name stats_df lines)
        /\ trace (fetch_and_display api pd today player_id player_name
                                   opponent_abbr lines)
           = trace (get_last_10_games api today player_id)
             ++ trace (get_player_position api player_id)
             ++ trace (get_dvp_table api pd)
             ++ warning :: trace (display_section player_id player_name stats_df lines)).
Proof.
  intros Hmiss warning.
  assert (E : forall s, matchup_section pd dvp_table s opponent_abbr = emit warning).
  { intros s. apply matchup_section_missing.
    destruct Hmiss as [-> | (name & -> & Hname)]; [reflexivity|].
    cbn [in_team_names]. rewrite bool_decide_eq_false_2 by exact Hname.
    apply andb_false_r. }
  split; [now rewrite E|]. split; [now rewrite E|].
  intros api today player_id player_name lines stats_df position Hlog Hpos Hdvp.
  unfold fetch_and_display.
  rewrite !result_bind, !trace_bind, Hlog.
  rewrite !result_bind, !trace_bind, Hpos.
  rewrite !result_bind, !trace_bind, Hdvp.
  rewrite !result_bind, !trace_bind, E. cbn [emit result trace].
  split; [reflexivity|]. rewrite <- ?app_assoc. reflexivity.
Qed.

Lemma missing_opponent_warns_witness :
  (exists name, team_map !! "LAL" = Some name
                /\ name ∉ Scorer.TEAM_NAME <$> [Scorer.mkDvpRow "Boston Celtics" 45 42 19])
  /\ matchup_section Sample.pd [Scorer.mkDvpRow "Boston Celtics" 45 42 19] "SF" "LAL"
     = mkApp (Return tt)
             [st_warning "Could not find DvP data for selected opponent."]
  /\ team_map !! "XYZ" = None
  /\ trace (matchup_section Sample.pd [] "C" "XYZ")
     = [st_warning "Could not find DvP data for selected opponent."].
Proof.
  assert (H1 : exists name, team_map !! "LAL" = Some name
                /\ name ∉ Scorer.TEAM_NAME <$> [Scorer.mkDvpRow "Boston Celtics" 45 42 19]).
  { exists "Los Angeles Lakers". split; [reflexivity|].
    intros Hin. apply list_elem_of_singleton in Hin. discriminate Hin. }
  assert (H2 : team_map !! "XYZ" = None) by reflexivity.
  destruct (missing_opponent_warns Sample.pd [Scorer.mkDvpRow "Boston Celtics" 45 42 19]
              "SF" "LAL" (or_intror H1)) as (R1 & T1 & _).
  destruct (missing_opponent_warns Sample.pd [] "C" "XYZ" (or_introl H2))
    as (_ & T2 & _).
  split; [exact H1|]. split; [|split; [exact H2 | exact T2]].
  destruct (matchup_section Sample.pd _ "SF" "LAL") as [r t].
  cbn in R1, T1. now rewrite R1, T1.
Defined.

End OpponentFacts.

(** ** Runs on concrete inputs *)

Section Runs.

Example season_in_november : get_season_string (mkDate 2024 11 3) = "2024-25".
Proof. reflexivity. Qed.

Example season_in_march : get_season_string (mkDate 2025 3 3) = "2024-25".
Proof. reflexivity. Qed.

Example season_turn_of_century : get_season_string (mkDate 1999 12 31) = "1999-00".
Proof. reflexivity. Qed.

Example season_single_digit_year : get_season_string (mkDate 5 11 3) = "5-6".
Proof. reflexivity. Qed.

Example previous_season_three_digit_year :
  previous_season_of (get_season_string (mkDate 999 11 3)) = Raise ValueError.
Proof. reflexivity. Qed.

Example slot_examples :
  simplify_slot "Guard" = "PG" /\ simplify_slot "Forward" = "SF"
  /\ simplify_slot "Center" = "C" /\ simplify_slot "Center-Forward" = "SF"
  /\ simplify_slot "" = "PG".
Proof. repeat split. Qed.

Example logo_of_boston :
  team_logos !! "BOS"
  = Some "https://cdn.nba.com/logos/nba/1610612738/global/L/logo.svg".
Proof. reflexivity. Qed.

Example handler_run_with_data :
  result (on_fetch_stats Sample.api Sample.pd (mkDate 2024 11 3)
            "LeBron James" "BOS" Sample.lines) = Return tt
  /\ take 7 (trace (on_fetch_stats Sample.api Sample.pd (mkDate 2024 11 3)
                      "LeBron James" "BOS" Sample.lines))
     = [request_PlayerGameLog 2544 "2024-25";
        request_PlayerGameLog 2544 "2023-20";
        request_CommonPlayerInfo 2544;
        request_LeagueDashTeamStats "Opponent" "PerGame" "G" "2024-25";
        request_LeagueDashTeamStats "Opponent" "PerGame" "F" "2024-25";
        request_LeagueDashTeamStats "Opponent" "PerGame" "C" "2024-25";
        st_metric "Matchup Multiplier" 0.85%Q].
Proof. split; vm_compute; reflexivity. Qed.

Example handler_run_unknown_player :
  on_fetch_stats Sample.api Sample.pd (mkDate 2024 11 3) "Nobody" "BOS" Sample.lines
  = emit (st_error "Player not found. Please check the name." None).
Proof. reflexivity. Qed.

End Runs.

(** * Further properties of the module *)

(** ** More on the scorer *)

Section ScorerMore.

Import Scorer.
Local Open Scope Q_scope.

Ltac by_bands z :=
  unfold branch_of, Qgeb, Qleb;
  destruct (Qle_bool_spec 1.0 z), (Qle_bool_spec 0.5 z),
           (Qle_bool_spec z (-1.0)), (Qle_bool_spec z (-0.5)).

Lemma branch_of_values (z : Q) :
  In (branch_of z) [0.75; 0.85; 1.00; 1.15; 1.25].
Proof. by_bands z; cbn; tauto. Qed.


(** X1.  With a non-zero deviation the multiplier is one of the five
    values 0.75, 0.85, 1.00, 1.15, 1.25. *)
Theorem matchup_multiplier_values (pts_allowed avg std : Q) :
  ~ std == 0 ->
  exists m, matchup_multiplier pts_allowed avg std = Return m
            /\ In m [0.75; 0.85; 1.00; 1.15; 1.25].
Proof.
  intros Hs. eexists. split; [now apply matchup_multiplier_branch|].
  apply branch_of_values.
Qed.

Lemma matchup_multiplier_values_witness :
  ~ 10 == 0
  /\ exists m, matchup_multiplier 93 100 10 = Return m
               /\ In m [0.75; 0.85; 1.00; 1.15; 1.25].
Proof.
  assert (Hs : ~ 10 == 0) by (intros H; discriminate H).
  exact (conj Hs (matchup_multiplier_values 93 100 10 Hs)).
Defined.





End ScorerMore.

(** ** Slots and the scorer together *)

Section SlotScore.

Import Scorer Py.
Local Open Scope Q_scope.

Lemma matchup_multiplier_outcomes (pts_allowed avg std : Q) :
  (std == 0 /\ matchup_multiplier pts_allowed avg std = Raise ZeroDivisionError)
  \/ (~ std == 0
      /\ exists m, matchup_multiplier pts_allowed avg std = Return m
                   /\ In m [0.75; 0.85; 1.00; 1.15; 1.25]).
Proof.
  destruct (Qeq_dec std 0) as [E|E].
  - left. split; [exact E|]. unfold matchup_multiplier.
    now rewrite (truediv_zero _ _ E).
  - right. split; [exact E|]. eexists.
    split; [now apply matchup_multiplier_branch | apply branch_of_values].
Qed.

(** X4.  The slot computed from a position string is PG, SF or C, never
    SG or PF, and it sends the scorer to one column of the defensive
    row: the guards' with a G in the string or with none of G, F, C;
    the forwards' with an F and no G; the centers' with a C and neither
    G nor F.  The neutral default of [get_matchup_score] is never taken
    for such a slot. *)
Theorem slot_selects_column (row : DvpRow) (position : string)
    (guard_avg guard_std forward_avg forward_std center_avg center_std : Q) :
  let score := get_matchup_score row (simplify_slot position)
                 guard_avg guard_std forward_avg forward_std
                 center_avg center_std in
  In (simplify_slot position) ["PG"; "SF"; "C"]%string
  /\ (has_char "G" position
      \/ (~ has_char "F" position /\ ~ has_char "C" position) ->
      score = matchup_multiplier (Guard_Pts_Allowed row) guard_avg guard_std)
  /\ (~ has_char "G" position /\ has_char "F" position ->
      score = matchup_multiplier (Forward_Pts_Allowed row) forward_avg forward_std)
  /\ (~ has_char "G" position /\ ~ has_char "F" position
      /\ has_char "C" position ->
      score = matchup_multiplier (Center_Pts_Allowed row) center_avg center_std).
Proof.
  cbv zeta. unfold simplify_slot.
  destruct (contains "G" position) eqn:EG;
    [apply contains_char in EG | apply contains_char_false in EG];
  (destruct (contains "F" position) eqn:EF;
    [apply contains_char in EF | apply contains_char_false in EF]);
  (destruct (contains "C" position) eqn:EC;
    [apply contains_char in EC | apply contains_char_false in EC]);
  (split; [cbn; tauto|]);
  repeat split; intros; try reflexivity; tauto.
Qed.

Lemma slot_selects_column_witness :
  (has_char "G" "Guard-Forward"
   \/ (~ has_char "F" "Guard-Forward" /\ ~ has_char "C" "Guard-Forward"))
  /\ get_matchup_score (mkDvpRow "Boston Celtics" 45 42 19)
       (simplify_slot "Guard-Forward") 48 3 45 3 22 3
     = matchup_multiplier 45 48 3
  /\ (~ has_char "G" "Center" /\ ~ has_char "F" "Center" /\ has_char "C" "Center")
  /\ get_matchup_score (mkDvpRow "Boston Celtics" 45 42 19)
       (simplify_slot "Center") 48 3 45 3 22 3
     = matchup_multiplier 19 22 3.
Proof.
  assert (G1 : has_char "G" "Guard-Forward") by (now apply contains_char).
  assert (G2 : ~ has_char "G" "Center") by (now apply contains_char_false).
  assert (F2 : ~ has_char "F" "Center") by (now apply contains_char_false).
  assert (C2 : has_char "C" "Center") by (now apply contains_char).
  destruct (slot_selects_column (mkDvpRow "Boston Celtics" 45 42 19)
              "Guard-Forward" 48 3 45 3 22 3) as (_ & H1 & _).
  destruct (slot_selects_column (mkDvpRow "Boston Celtics" 45 42 19)
              "Center" 48 3 45 3 22 3) as (_ & _ & _ & H2).
  split; [left; exact G1|]. split; [exact (H1 (or_introl G1))|].
  split; [exact (conj G2 (conj F2 C2))|].
  exact (H2 (conj G2 (conj F2 C2))).
Defined.

(** X5.  [get_matchup_score] either returns one of the five multipliers
    or raises the division error, nothing else; for a slot outside PG,
    SG, SF, PF and C it returns 1.00 without dividing, whatever the
    deviations are. *)
Theorem get_matchup_score_outcomes (row : DvpRow) (slot : string)
    (guard_avg guard_std forward_avg forward_std center_avg center_std : Q) :
  let score := get_matchup_score row slot guard_avg guard_std
                 forward_avg forward_std center_avg center_std in
  (forall e, score = Raise e -> e = ZeroDivisionError)
  /\ (forall m, score = Return m -> In m [0.75; 0.85; 1.00; 1.15; 1.25])
  /\ (~ In slot ["PG"; "SG"; "SF"; "PF"; "C"]%string -> score = Return 1.00).
Proof.
  cbv zeta. unfold get_matchup_score.
  assert (M : forall p a s,
    (forall e, matchup_multiplier p a s = Raise e -> e = ZeroDivisionError)
    /\ (forall m, matchup_multiplier p a s = Return m ->
                  In m [0.75; 0.85; 1.00; 1.15; 1.25])).
  { intros p a s.
    destruct (matchup_multiplier_outcomes p a s) as [[_ ->] | (_ & m & -> & Hm)];
      split; intros x Hx; try discriminate Hx; injection Hx as <-;
      [reflexivity | exact Hm]. }
  repeat case_bool_decide.
  - split; [apply M|]. split; [apply M|].
    intros Hn. exfalso. apply Hn.
    match goal with H : slot ∈ _ |- _ => apply list_elem_of_In in H end.
    cbn in *. tauto.
  - split; [apply M|]. split; [apply M|].
    intros Hn. exfalso. apply Hn.
    match goal with H : slot ∈ _ |- _ => apply list_elem_of_In in H end.
    cbn in *. tauto.
  - split; [apply M|]. split; [apply M|].
    intros Hn. exfalso. apply Hn. subst slot. cbn. tauto.
  - split; [intros e He; discriminate He|].
    split; [intros m Hm; injection Hm as <-; cbn; tauto | reflexivity].
Qed.

Lemma get_matchup_score_outcomes_witness :
  ~ In "SG/PF"%string ["PG"; "SG"; "SF"; "PF"; "C"]%string
  /\ get_matchup_score (mkDvpRow "Boston Celtics" 45 42 19) "SG/PF" 48 0 45 0 22 0
     = Return 1.00.
Proof.
  assert (Hn : ~ In "SG/PF"%string ["PG"; "SG"; "SF"; "PF"; "C"]%string).
  { cbn. intros [H|[H|[H|[H|[H|[]]]]]]; discriminate H. }
  destruct (get_matchup_score_outcomes (mkDvpRow "Boston Celtics" 45 42 19)
              "SG/PF" 48 0 45 0 22 0) as (_ & _ & H).
  exact (conj Hn (H Hn)).
Defined.

End SlotScore.

(** ** More on season strings *)

Section SeasonMore.

Import Py.
Local Open Scope Z_scope.

Lemma season_string_of_start (today : date) :
  get_season_string today
  = str (season_start today) +:+ "-"
    +:+ slice_from (str (season_start today + 1)) (-2).
Proof.
  unfold get_season_string, season_start.
  destruct (month today >=? 10); [reflexivity|].
  now replace (year today - 1 + 1) with (year today) by lia.
Qed.

Lemma str_four_chars (n : Z) :
  1000 <= n <= 9999 ->
  str n = String (digit ((n / 100) / 10 mod 10)) (String (digit ((n / 100) mod 10))
            (String (digit (n / 10 mod 10)) (String (digit (n mod 10)) EmptyString))).
Proof. intros Hn. now rewrite (str_four_digits n Hn). Qed.

Lemma int_str_four_digits (n : Z) : 1000 <= n <= 9999 -> int (str n) = Return n.
Proof.
  intros Hn. rewrite (str_four_chars n Hn).
  rewrite int_four_digits by apply digit_bound. f_equal.
  Z.to_euclidean_division_equations. lia.
Qed.

Lemma season_string_prefix (today : date) :
  1000 <= season_start today <= 9999 ->
  slice_to (get_season_string today) 4 = str (season_start today).
Proof.
  intros HY. rewrite season_string_of_start, (str_four_chars _ HY).
  change 4 with (Z.of_nat 4).
  rewrite slice_to_take by (rewrite length_append; cbn [String.length]; lia).
  reflexivity.
Qed.

(** X6.  Two clock readings in the same season (October of a year to
    September of the next) give the same season string, and, for
    four-digit years, readings in different seasons give different
    strings. *)
Theorem season_string_same_season (d1 d2 : date) :
  (season_start d1 = season_start d2 ->
   get_season_string d1 = get_season_string d2)
  /\ (1000 <= season_start d1 <= 9999 -> 1000 <= season_start d2 <= 9999 ->
      get_season_string d1 = get_season_string d2 ->
      season_start d1 = season_start d2).
Proof.
  split.
  - intros E. now rewrite !season_string_of_start, E.
  - intros H1 H2 E.
    assert (E' : int (str (season_start d1)) = int (str (season_start d2)))
      by (now rewrite <- !season_string_prefix, E).
    rewrite !int_str_four_digits in E' by assumption. now injection E'.
Qed.

Lemma season_string_same_season_witness :
  (season_start (mkDate 2024 12 31) = season_start (mkDate 2025 1 1)
   /\ get_season_string (mkDate 2024 12 31) = get_season_string (mkDate 2025 1 1))
  /\ (1000 <= season_start (mkDate 2024 10 1) <= 9999
      /\ 1000 <= season_start (mkDate 2024 10 1) <= 9999
      /\ get_season_string (mkDate 2024 10 1) = get_season_string (mkDate 2024 10 1)
      /\ season_start (mkDate 2024 10 1) = season_start (mkDate 2024 10 1)).
Proof.
  assert (E : season_start (mkDate 2024 12 31) = season_start (mkDate 2025 1 1))
    by reflexivity.
  assert (B : 1000 <= season_start (mkDate 2024 10 1) <= 9999) by (cbn; lia).
  destruct (season_string_same_season (mkDate 2024 12 31) (mkDate 2025 1 1))
    as [H1 _].
  destruct (season_string_same_season (mkDate 2024 10 1) (mkDate 2024 10 1))
    as [_ H2].
  split; [exact (conj E (H1 E))|].
  exact (conj B (conj B (conj eq_refl (H2 B B eq_refl)))).
Defined.

End SeasonMore.

(** ** More on the game log *)

Section GameLogMore.

Import Py.
Local Open Scope Z_scope.
Local Open Scope list_scope.

Lemma slice_to_cons (a : ascii) (t : string) (j : Z) :
  0 < j -> slice_to (String a t) j = String a (slice_to t (j - 1)).
Proof.
  intros Hj. unfold slice_to, slice_bound. cbn [String.length].
  destruct (j <? 0) eqn:E; [apply Z.ltb_lt in E; lia|].
  destruct (j - 1 <? 0) eqn:E'; [apply Z.ltb_lt in E'; lia|].
  replace (Z.to_nat (Z.min j (Z.of_nat (S (String.length t)))))
    with (S (Z.to_nat (Z.min (j - 1) (Z.of_nat (String.length t))))) by lia.
  reflexivity.
Qed.

Lemma parse_digits_digit (acc d : Z) (t : string) :
  0 <= d < 10 ->
  parse_digits acc (String (digit d) t) = parse_digits (10 * acc + d) t.
Proof. intros Hd. cbn [parse_digits]. now rewrite digit_value_digit. Qed.

Lemma int_digit_head (d : Z) (t : string) :
  0 <= d < 10 ->
  int (String (digit d) t)
  = match parse_digits d t with
    | Some n => Return n
    | None => Raise ValueError
    end.
Proof.
  intros Hd.
  destruct (digit_cases d Hd) as [->|[->|[->|[->|[->|[->|[->|[->|[->| ->]]]]]]]]];
    reflexivity.
Qed.

Ltac push_slices :=
  repeat match goal with
         | |- context [slice_to (String ?a ?t) ?j] =>
             rewrite (slice_to_cons a t j) by lia
         end.

Lemma previous_season_short_year (today : date) :
  0 <= season_start today < 1000 ->
  previous_season_of (get_season_string today) = Raise ValueError.
Proof.
  intros HY. unfold previous_season_of. rewrite season_string_of_start.
  set (Y := season_start today) in *.
  set (sfx := slice_from (str (Y + 1)) (-2)).
  assert (H10 : 0 <= Y / 10 < 100)
    by (split; [apply Z.div_pos | apply Z.div_lt_upper_bound]; lia).
  assert (H100 : 0 <= Y / 10 / 10 < 10)
    by (split; [apply Z.div_pos | apply Z.div_lt_upper_bound]; lia).
  destruct (Z_lt_le_dec Y 10) as [H1|H1].
  - rewrite (str_small Y) by lia.
    change (String (digit Y) EmptyString +:+ "-" +:+ sfx)
      with (String (digit Y) (String "-" sfx)).
    push_slices. now rewrite int_digit_head by lia.
  - rewrite (str_step Y) by lia.
    destruct (Z_lt_le_dec (Y / 10) 10) as [H2|H2].
    + rewrite (str_small (Y / 10)) by lia.
      change ((String (digit (Y / 10)) EmptyString
               +:+ String (digit (Y mod 10)) EmptyString) +:+ "-" +:+ sfx)
        with (String (digit (Y / 10)) (String (digit (Y mod 10)) (String "-" sfx))).
      push_slices.
      rewrite int_digit_head by lia.
      now rewrite parse_digits_digit by apply digit_bound.
    + rewrite (str_step (Y / 10)) by lia. rewrite (str_small (Y / 10 / 10)) by lia.
      change (((String (digit (Y / 10 / 10)) EmptyString
                +:+ String (digit ((Y / 10) mod 10)) EmptyString)
               +:+ String (digit (Y mod 10)) EmptyString) +:+ "-" +:+ sfx)
        with (String (digit (Y / 10 / 10)) (String (digit ((Y / 10) mod 10))
                (String (digit (Y mod 10)) (String "-" sfx)))).
      push_slices.
      rewrite int_digit_head by lia.
      now rewrite !parse_digits_digit by apply digit_bound.
Qed.

(** X7.  When the season's first year has fewer than four digits, the
    first four characters of the season string include the dash,
    [int] raises [ValueError], and [get_last_10_games] fails with it
    before any request is sent. *)
Theorem get_last_10_games_short_year (api : NbaApi) (today : date) (player_id : Z) :
  0 <= season_start today < 1000 ->
  get_last_10_games api today player_id = mkApp (Raise ValueError) [].
Proof.
  intros HY. unfold get_last_10_games.
  now rewrite (previous_season_short_year today HY).
Qed.

Lemma get_last_10_games_short_year_witness :
  0 <= season_start (mkDate 999 11 3) < 1000
  /\ get_last_10_games Sample.api (mkDate 999 11 3) 2544
     = mkApp (Raise ValueError) [].
Proof.
  assert (HY : 0 <= season_start (mkDate 999 11 3) < 1000) by (cbn; lia).
  exact (conj HY (get_last_10_games_short_year Sample.api _ 2544 HY)).
Defined.

Lemma date_leb_spec (a b : date) :
  date_leb a b = true
  <-> year a < year b
      \/ (year a = year b
          /\ (month a < month b \/ (month a = month b /\ day a <= day b))).
Proof.
  unfold date_leb.
  rewrite !orb_true_iff, !andb_true_iff, !orb_true_iff, !andb_true_iff.
  rewrite !Z.ltb_lt, !Z.eqb_eq, Z.leb_le. reflexivity.
Qed.

Lemma not_older_trans : Transitive not_older.
Proof.
  intros g h k. unfold not_older. rewrite !Is_true_true, !date_leb_spec. lia.
Qed.

Lemma not_older_total : Total not_older.
Proof.
  intros g h. unfold not_older. rewrite !Is_true_true, !date_leb_spec. lia.
Qed.

(** X8.  When the previous-season string parses and both fetches
    answer, [get_last_10_games] returns the most recent games of the
    two logs together: ten of them, or all when there are fewer; in
    descending date order; drawn from the logs without repetition or
    invention; and no game left out is more recent than a game kept.
    The frame has no [OverLine] column yet. *)
Theorem get_last_10_games_most_recent (api : NbaApi) (today : date)
    (player_id : Z) (previous_season : string)
    (logs_current logs_previous : list GameRecord) :
  previous_season_of (get_season_string today) = Return previous_season ->
  PlayerGameLog api player_id (get_season_string today) = Return logs_current ->
  PlayerGameLog api player_id previous_season = Return logs_previous ->
  exists (df : GameFrame) (rest : list GameRecord),
    result (get_last_10_games api today player_id) = Return df
    /\ OverLine df = None
    /\ length (rows df)
       = Nat.min 10 (length logs_current + length logs_previous)
    /\ rows df ++ rest ≡ₚ logs_current ++ logs_previous
    /\ StronglySorted not_older (rows df)
    /\ (forall g h, g ∈ rows df -> h ∈ rest -> not_older g h).
Proof.
  intros Hprev Hcur Hold.
  set (sorted := sort_values_desc (logs_current ++ logs_previous)).
  exists (mkFrame (firstn 10 sorted) None), (skipn 10 sorted).
  assert (Hperm : sorted ≡ₚ logs_current ++ logs_previous)
    by apply merge_sort_Permutation.
  assert (Hsort : StronglySorted not_older sorted)
    by (apply (@StronglySorted_merge_sort _ not_older _
                 not_older_trans not_older_total)).
  rewrite <- (take_drop 10 sorted) in Hsort.
  split.
  { unfold get_last_10_games. rewrite Hprev. cbn. rewrite Hcur. cbn.
    rewrite Hold. reflexivity. }
  cbn [rows OverLine]. split; [reflexivity|]. split.
  { rewrite length_take, (Permutation_length Hperm), length_app. reflexivity. }
  split; [now rewrite take_drop|]. split.
  - exact (StronglySorted_app_1_l _ _ _ Hsort).
  - intros g h Hg Hh. exact (StronglySorted_app_1_elem_of _ _ _ _ _ Hsort Hg Hh).
Qed.

Lemma get_last_10_games_most_recent_witness :
  exists df rest,
    result (get_last_10_games Sample.api (mkDate 2024 11 3) 2544) = Return df
    /\ OverLine df = None
    /\ length (rows df) = 4%nat
    /\ rows df ++ rest ≡ₚ Sample.games_2024 ++ Sample.games_2023
    /\ StronglySorted not_older (rows df)
    /\ (forall g h, g ∈ rows df -> h ∈ rest -> not_older g h).
Proof.
  exact (get_last_10_games_most_recent Sample.api (mkDate 2024 11 3) 2544
           "2023-20" Sample.games_2024 Sample.games_2023
           eq_refl eq_refl eq_refl).
Defined.

End GameLogMore.

(** ** More on the defensive table and the matchup section *)

Section MatchupMore.

Import Scorer.
Local Open Scope list_scope.

(** X9.  [get_dvp_table] hands [pivot] the three answers in the order G,
    F, C, each row tagged with its position group, and returns what
    [pivot] returns; when a fetch fails, the function raises that
    fetch's exception and [pivot] is not consulted. *)
Theorem get_dvp_table_result (api : NbaApi) (pd : Pandas) :
  let ask pos := LeagueDashTeamStats api "Opponent" "PerGame" pos "2024-25" in
  let tag pos df := map (fun r => mkPositionStats r pos) df in
  result (get_dvp_table api pd)
  = match ask "G" with
    | Raise e => Raise e
    | Return g =>
        match ask "F" with
        | Raise e => Raise e
        | Return f =>
            match ask "C" with
            | Raise e => Raise e
            | Return c => pivot pd (tag "G" g ++ tag "F" f ++ tag "C" c)
            end
        end
    end.
Proof.
  cbv zeta. unfold get_dvp_table, position_groups. cbn [for_each]. cbv beta.
  destruct (LeagueDashTeamStats api "Opponent" "PerGame" "G" "2024-25");
    [|reflexivity].
  destruct (LeagueDashTeamStats api "Opponent" "PerGame" "F" "2024-25");
    [|reflexivity].
  destruct (LeagueDashTeamStats api "Opponent" "PerGame" "C" "2024-25");
    [|reflexivity].
  cbn. now rewrite app_nil_r.
Qed.

Lemma team_row_found (name : string) (dvp_table : list DvpRow) :
  name ∈ TEAM_NAME <$> dvp_table ->
  exists row, iloc0 (filter (fun r => Some (TEAM_NAME r) = Some name) dvp_table)
              = Return row
              /\ TEAM_NAME row = name /\ row ∈ dvp_table.
Proof.
  intros Hin. apply list_elem_of_fmap in Hin as (row & -> & Hrow).
  assert (Hf : row ∈ filter (fun r => Some (TEAM_NAME r) = Some (TEAM_NAME row))
                       dvp_table)
    by (apply list_elem_of_filter; split; [reflexivity | exact Hrow]).
  destruct (filter _ dvp_table) as [|r rs] eqn:E; [now apply elem_of_nil in Hf|].
  exists r. split; [reflexivity|].
  assert (Hr : r ∈ filter (fun r => Some (TEAM_NAME r) = Some (TEAM_NAME row))
                     dvp_table) by (rewrite E; left).
  apply list_elem_of_filter in Hr as [Hn Hr].
  split; [now injection Hn | exact Hr].
Qed.

Lemma get_matchup_score_result (row : DvpRow) (slot : string)
    (ga gs fa fs ca cs : Q) :
  get_matchup_score row slot ga gs fa fs ca cs = Raise ZeroDivisionError
  \/ exists m, get_matchup_score row slot ga gs fa fs ca cs = Return m
               /\ In m [0.75; 0.85; 1.00; 1.15; 1.25]%Q.
Proof.
  assert (M : forall p a s,
    matchup_multiplier p a s = Raise ZeroDivisionError
    \/ exists m, matchup_multiplier p a s = Return m
                 /\ In m [0.75; 0.85; 1.00; 1.15; 1.25]%Q).
  { intros p a s.
    destruct (matchup_multiplier_outcomes p a s) as [[_ H] | [_ H]]; auto. }
  unfold get_matchup_score. repeat case_bool_decide; try apply M.
  right. eexists. split; [reflexivity|]. cbn. tauto.
Qed.

Lemma matchup_section_found (pd : Pandas) (dvp_table : list DvpRow)
    (slot opponent_abbr : string) :
  truthy (team_map !! opponent_abbr)
  && in_team_names (team_map !! opponent_abbr) dvp_table = true ->
  matchup_section pd dvp_table slot opponent_abbr = mkApp (Raise ZeroDivisionError) []
  \/ exists m, matchup_section pd dvp_table slot opponent_abbr
               = emit (st_metric "Matchup Multiplier" m)
               /\ In m [0.75; 0.85; 1.00; 1.15; 1.25]%Q.
Proof.
  intros H. unfold matchup_section. rewrite H.
  apply andb_true_iff in H as [_ H].
  destruct (team_map !! opponent_abbr) as [name|]; [|discriminate H].
  cbn [in_team_names] in H. apply bool_decide_eq_true in H.
  destruct (team_row_found name dvp_table H) as (row & -> & _).
  cbn [lift mbind App_bind result trace].
  match goal with
  | |- context [get_matchup_score ?r ?s ?a ?b ?c ?d ?e ?f] =>
      destruct (get_matchup_score_result r s a b c d e f) as [-> | (m & -> & Hm)]
  end.
  - left. reflexivity.
  - right. exists m. split; [reflexivity | exact Hm].
Qed.


Lemma selectable_mapped :
  Forall (fun abbr => exists name, team_map !! abbr = Some name
                                   /\ name <> ""
                                   /\ is_Some (team_logos !! abbr))
         team_abbrs.
Proof.
  unfold team_abbrs.
  repeat (constructor;
          [eexists; split; [vm_compute; reflexivity|];
           split; [discriminate | eexists; vm_compute; reflexivity]|]).
  constructor.
Qed.

(** X16.  Every abbreviation offered by the select box has a team name
    and a logo, and for such an opponent the warning is shown exactly
    when its team name is missing from the TEAM_NAME column of the
    defensive table. *)
Theorem selectable_opponent (abbr : string) :
  In abbr team_abbrs ->
  exists name,
    team_map !! abbr = Some name
    /\ is_Some (team_logos !! abbr)
    /\ forall (pd : Pandas) (dvp_table : list DvpRow) (slot : string),
         matchup_section pd dvp_table slot abbr
         = emit (st_warning "Could not find DvP data for selected opponent.")
         <-> name ∉ TEAM_NAME <$> dvp_table.
Proof.
  intros Hin. apply list_elem_of_In in Hin.
  destruct (proj1 (Forall_forall _ _) selectable_mapped abbr Hin)
    as (name & Hname & Hne & Hlogo).
  exists name. split; [exact Hname|]. split; [exact Hlogo|].
  intros pd dvp_table slot.
  assert (Ht : truthy (team_map !! abbr) = true).
  { rewrite Hname. cbn. apply negb_true_iff. now apply String.eqb_neq. }
  split.
  - intros Hw Hin'.
    assert (E : truthy (team_map !! abbr)
                && in_team_names (team_map !! abbr) dvp_table = true).
    { rewrite Ht, Hname. cbn. now apply bool_decide_eq_true. }
    destruct (matchup_section_found pd dvp_table slot abbr E) as [H | (m & H & _)];
      rewrite H in Hw; discriminate Hw.
  - intros Hnot. apply matchup_section_missing.
    rewrite Hname. cbn [in_team_names].
    rewrite bool_decide_eq_false_2 by exact Hnot. apply andb_false_r.
Qed.

Lemma selectable_opponent_witness :
  In "BOS" team_abbrs
  /\ exists name,
       team_map !! "BOS" = Some name
       /\ is_Some (team_logos !! "BOS")
       /\ forall (pd : Pandas) (dvp_table : list DvpRow) (slot : string),
            matchup_section pd dvp_table slot "BOS"
            = emit (st_warning "Could not find DvP data for selected opponent.")
            <-> name ∉ TEAM_NAME <$> dvp_table.
Proof.
  assert (Hin : In "BOS" team_abbrs) by (cbn; tauto).
  exact (conj Hin (selectable_opponent "BOS" Hin)).
Defined.

End MatchupMore.

(** ** More on the handler *)

Section HandlerMore.

Local Open Scope list_scope.



Lemma fetch_and_display_requests (api : NbaApi) (pd : Pandas) (today : date)
    (player_id : Z) (player_name opponent_abbr : string) (lines : PropLines) :
  Forall (player_request_for player_id)
         (trace (fetch_and_display api pd today player_id player_name
                                   opponent_abbr lines)).
Proof.
  unfold fetch_and_display, get_last_10_games, get_player_position,
    get_dvp_table, matchup_section, display_section.
  repeat trace_step; first [exact I | reflexivity].
Qed.

(** X11.  Every request about a player that a run sends is for the
    identifier of the first match of the name; when the name has no
    match, or the identifier is 0, the run sends no request at all and
    only shows the "not found" message. *)
Theorem on_fetch_stats_player (api : NbaApi) (pd : Pandas) (today : date)
    (player_name opponent_abbr : string) (lines : PropLines) :
  let run := on_fetch_stats api pd today player_name opponent_abbr lines in
  (forall player_id, head (find_players_by_full_name api player_name)
                     = Some player_id ->
                     Forall (player_request_for player_id) (trace run))
  /\ (head (find_players_by_full_name api player_name) = None
      \/ head (find_players_by_full_name api player_name) = Some 0%Z ->
      run = emit (st_error "Player not found. Please check the name." None)).
Proof.
  cbv zeta. unfold on_fetch_stats, get_player_id. split.
  - intros player_id ->. destruct (player_id =? 0)%Z.
    + repeat constructor.
    + apply Forall_trace_try; [apply fetch_and_display_requests|].
      intros e. repeat constructor.
  - intros [-> | ->]; reflexivity.
Qed.

Lemma on_fetch_stats_player_witness :
  head (find_players_by_full_name Sample.api "LeBron James") = Some 2544%Z
  /\ Forall (player_request_for 2544)
            (trace (on_fetch_stats Sample.api Sample.pd (mkDate 2024 11 3)
                      "LeBron James" "BOS" Sample.lines))
  /\ head (find_players_by_full_name Sample.api "Nobody") = None
  /\ on_fetch_stats Sample.api Sample.pd (mkDate 2024 11 3) "Nobody" "BOS"
       Sample.lines
     = emit (st_error "Player not found. Please check the name." None).
Proof.
  assert (H1 : head (find_players_by_full_name Sample.api "LeBron James")
               = Some 2544%Z) by reflexivity.
  assert (H2 : head (find_players_by_full_name Sample.api "Nobody") = None)
    by reflexivity.
  destruct (on_fetch_stats_player Sample.api Sample.pd (mkDate 2024 11 3)
              "LeBron James" "BOS" Sample.lines) as [A _].
  destruct (on_fetch_stats_player Sample.api Sample.pd (mkDate 2024 11 3)
              "Nobody" "BOS" Sample.lines) as [_ B].
  exact (conj H1 (conj (A _ H1) (conj H2 (B (or_introl H2))))).
Defined.

End HandlerMore.

(** ** More on charts and percentages *)

Section ChartMore.

Local Open Scope Z_scope.
Local Open Scope list_scope.

Lemma fold_max_spec (rest : list Z) : forall acc : Z,
  (fold_left Z.max rest acc = acc \/ fold_left Z.max rest acc ∈ rest)
  /\ acc <= fold_left Z.max rest acc
  /\ forall v, v ∈ rest -> v <= fold_left Z.max rest acc.
Proof.
  induction rest as [|x rest IH]; intros acc; cbn [fold_left].
  - split; [now left|]. split; [lia|]. intros v Hv. now apply elem_of_nil in Hv.
  - destruct (IH (Z.max acc x)) as (Hin & Hle & Hall).
    split; [|split].
    + destruct Hin as [E|Hin]; [|right; now right].
      rewrite E. destruct (Z.max_spec acc x) as [[_ ->]|[_ ->]];
        [right; left | now left].
    + lia.
    + intros v Hv. apply elem_of_cons in Hv as [->|Hv]; [lia | now apply Hall].
Qed.

Lemma column_max_spec (values : list Z) (m : Z) :
  column_max values = Some m ->
  m ∈ values /\ forall v, v ∈ values -> v <= m.
Proof.
  destruct values as [|x rest]; [discriminate|]. cbn [column_max].
  intros H. injection H as <-.
  destruct (fold_max_spec rest x) as (Hin & Hle & Hall).
  split.
  - destruct Hin as [->|Hin]; [left | now right].
  - intros v Hv. apply elem_of_cons in Hv as [->|Hv]; [exact Hle | now apply Hall].
Qed.

(** X15.  [stat_chart] draws one bar per game, in the order of the
    frame, green when the game's value is strictly over the line and
    red otherwise; the rule is at the line.  The y axis has no top
    exactly when there is no game; otherwise its top is 1.2 times the
    largest value, which lies on or above every bar when no value is
    negative. *)
Theorem stat_chart_shape (df : GameFrame) (stat : string) (line : Z)
    (values : list Z) :
  column df stat = Return values ->
  exists (chart : Chart) (df' : GameFrame),
    stat_chart df stat line = Return (chart, df')
    /\ rule chart = line
    /\ length (bars chart) = length (rows df)
    /\ (forall (i : nat) (g : GameRecord) (v : Z),
          rows df !! i = Some g -> values !! i = Some v ->
          bars chart !! i
          = Some (GAME_DATE g, v, if bool_decide (line < v) then green else red))
    /\ (y_max chart = None <-> rows df = [])
    /\ (forall top : Q, y_max chart = Some top ->
          exists m : Z,
            m ∈ values /\ top = (inject_Z m * 1.2)%Q
            /\ (forall v, v ∈ values -> v <= m)
            /\ (Forall (fun v => 0 <= v) values ->
                forall v, v ∈ values -> (inject_Z v <= top)%Q)).
Proof.
  intros Hcol. destruct (column_Return _ _ _ Hcol) as [f Hf].
  unfold stat_chart. rewrite Hcol. cbn [mbind outcome_bind].
  eexists _, _. split; [reflexivity|]. cbn [rule bars y_max rows].
  split; [reflexivity|].
  rewrite Hf, zip3_bars_map. split; [apply length_fmap|]. split; [|split].
  - intros i g v Hg Hv. rewrite list_lookup_fmap, Hg in Hv. injection Hv as <-.
    rewrite list_lookup_fmap, Hg. cbn. unfold bar. now rewrite gtb_strict.
  - destruct (rows df) as [|g gs]; cbn; split; intros H; try reflexivity;
      discriminate H.
  - intros top Htop.
    destruct (column_max (f <$> rows df)) as [m|] eqn:Em; [|discriminate Htop].
    cbn in Htop. injection Htop as <-.
    destruct (column_max_spec _ _ Em) as [Hin Hmax].
    exists m. split; [exact Hin|]. split; [reflexivity|]. split; [exact Hmax|].
    intros Hpos v Hv.
    assert (0 <= m).
    { assert (Hm := proj1 (Forall_forall _ _) Hpos m Hin). exact Hm. }
    assert (Hvm := Hmax v Hv).
    rewrite Zle_Qle in Hvm. rewrite Zle_Qle in H.
    change (inject_Z 0) with 0%Q in H. lra.
Qed.

Lemma stat_chart_shape_witness :
  column (mkFrame Sample.games_2024 None) "REB" = Return [4; 5; 14]
  /\ exists chart df',
       stat_chart (mkFrame Sample.games_2024 None) "REB" 5 = Return (chart, df')
       /\ rule chart = 5
       /\ length (bars chart) = 3%nat
       /\ bars chart !! 2%nat = Some (mkDate 2024 10 26, 14, green)
       /\ y_max chart = Some (inject_Z 14 * 1.2)%Q.
Proof.
  assert (Hcol : column (mkFrame Sample.games_2024 None) "REB" = Return [4; 5; 14])
    by reflexivity.
  destruct (stat_chart_shape _ _ 5 _ Hcol)
    as (chart & df' & Hc & Hr & Hl & Hb & _ & _).
  split; [exact Hcol|]. exists chart, df'.
  split; [exact Hc|]. split; [exact Hr|]. split; [exact Hl|].
  split; [exact (Hb 2%nat _ 14 eq_refl eq_refl)|].
  unfold stat_chart in Hc. rewrite Hcol in Hc. injection Hc as <- _. reflexivity.
Defined.

End ChartMore.

Section PercentMore.

Local Open Scope Z_scope.
Local Open Scope list_scope.

Lemma over_count_antitone (line line' : Z) (values : list Z) :
  line <= line' ->
  (length (filter (fun v => Is_true (v >? line')) values)
   <= length (filter (fun v => Is_true (v >? line)) values))%nat.
Proof.
  intros Hl. induction values as [|v values IH]; [reflexivity|].
  rewrite !filter_cons.
  destruct (Z.gtb_spec v line'), (Z.gtb_spec v line);
    repeat case_decide; cbn [length] in *; try lia;
    repeat match goal with H : Is_true false |- _ => destruct H
                         | H : ~ Is_true true |- _ => destruct (H I) end.
Qed.

Lemma over_count_zero (line : Z) (values : list Z) :
  length (filter (fun v => Is_true (v >? line)) values) = 0%nat
  <-> Forall (fun v => v <= line) values.
Proof.
  induction values as [|v values IH]; [split; [constructor | reflexivity]|].
  rewrite filter_cons, Forall_cons.
  destruct (Z.gtb_spec v line); case_decide; cbn [length];
    try match goal with H : Is_true false |- _ => destruct H end;
    try match goal with H : ~ Is_true true |- _ => destruct (H I) end.
  - split; [discriminate | lia].
  - rewrite IH. split; [intros; split; [lia | assumption] | tauto].
Qed.

Lemma over_count_full (line : Z) (values : list Z) :
  length (filter (fun v => Is_true (v >? line)) values) = length values
  <-> Forall (fun v => line < v) values.
Proof.
  induction values as [|v values IH]; [split; [constructor | reflexivity]|].
  rewrite filter_cons, Forall_cons.
  assert (Hle := length_filter (fun v => Is_true (v >? line)) values).
  destruct (Z.gtb_spec v line); case_decide; cbn [length];
    try match goal with H : Is_true false |- _ => destruct H end;
    try match goal with H : ~ Is_true true |- _ => destruct (H I) end.
  - rewrite <- IH. split; [intros E; split; [lia | lia] | intros [_ E]; lia].
  - split; [lia | lia].
Qed.

Local Open Scope Q_scope.

Lemma percent_facts (c c' n : nat) :
  (0 < n)%nat -> (c <= n)%nat ->
  0 <= percent c n <= 100
  /\ ((c' <= c)%nat -> percent c' n <= percent c n)
  /\ (percent c n == 0 <-> c = 0%nat)
  /\ (percent c n == 100 <-> c = n).
Proof.
  intros Hn Hc. unfold percent.
  assert (Hy : 0 < inject_Z (Z.of_nat n))
    by (change 0 with (inject_Z 0); rewrite <- Zlt_Qlt; lia).
  assert (Hx : 0 <= inject_Z (Z.of_nat c) <= inject_Z (Z.of_nat n))
    by (change 0 with (inject_Z 0); rewrite <- !Zle_Qle; lia).
  set (y := inject_Z (Z.of_nat n)) in *.
  set (x := inject_Z (Z.of_nat c)) in *.
  assert (Hq : forall a, a / y * y == a) by (intros a; field; lra).
  assert (Hqx := Hq x).
  assert (Hmono : forall a b, a <= b -> a / y <= b / y).
  { intros a b Hab. apply Qle_shift_div_l; [exact Hy|]. now rewrite Hq. }
  assert (H0 : 0 / y == 0) by (field; lra).
  assert (H1 : y / y == 1) by (field; lra).
  assert (Hlo := Hmono 0 x (proj1 Hx)). assert (Hhi := Hmono x y (proj2 Hx)).
  rewrite H0 in Hlo. rewrite H1 in Hhi.
  split; [lra|]. split; [|split].
  - intros Hc'.
    assert (Hab : inject_Z (Z.of_nat c') <= x)
      by (unfold x; rewrite <- Zle_Qle; lia).
    assert (Hd := Hmono _ _ Hab). lra.
  - split.
    + intros E. assert (Ex : x == 0) by (rewrite <- Hqx; nra).
      unfold x in Ex. change 0 with (inject_Z 0) in Ex.
      apply (proj1 (inject_Z_injective _ _)) in Ex. lia.
    + intros ->. unfold x. change (inject_Z (Z.of_nat 0)) with 0. lra.
  - split.
    + intros E. assert (Ex : x == y) by (rewrite <- Hqx; nra).
      unfold x, y in Ex. apply (proj1 (inject_Z_injective _ _)) in Ex. lia.
    + intros E. assert (Ex : x == y) by (unfold x, y; now rewrite E).
      rewrite Ex, H1. lra.
Qed.

(** X14.  For a non-empty frame the percentage over a line lies between 0
    and 100; it is 0 exactly when no game is strictly over the line and
    100 exactly when every game is; and raising the line never raises
    the percentage. *)
Theorem pct_above_bounds (df : GameFrame) (stat : string) (line line' : Z)
    (values : list Z) :
  column df stat = Return values -> rows df <> [] ->
  exists p p' : Q,
    pct_above df stat line = Return (Some p)
    /\ pct_above df stat line' = Return (Some p')
    /\ 0 <= p <= 100
    /\ ((line <= line')%Z -> p' <= p)
    /\ (p == 0 <-> Forall (fun v => (v <= line)%Z) values)
    /\ (p == 100 <-> Forall (fun v => (line < v)%Z) values).
Proof.
  intros Hcol Hrows. destruct (column_Return _ _ _ Hcol) as [f Hf].
  assert (Hlen : length (rows df) = length values) by (now rewrite Hf, length_fmap).
  assert (Hn : (0 < length (rows df))%nat)
    by (destruct (rows df); [contradiction | cbn; lia]).
  assert (E : forall l, pct_above df stat l
    = Return (Some (percent (length (filter (fun v => Is_true (v >? l)%Z) values))
                            (length (rows df))))).
  { intros l. unfold pct_above. rewrite Hcol. cbn [mbind outcome_bind].
    destruct (length (rows df)); [lia | reflexivity]. }
  eexists _, _. split; [apply E|]. split; [apply E|].
  assert (Hc : (length (filter (fun v => Is_true (v >? line)%Z) values)
                <= length (rows df))%nat)
    by (rewrite Hlen; apply length_filter).
  destruct (percent_facts _ (length (filter (fun v => Is_true (v >? line')%Z) values))
              _ Hn Hc) as (Hb & Hm & Hz & Hf').
  split; [exact Hb|]. split; [|split].
  - intros Hl. apply Hm. now apply over_count_antitone.
  - rewrite Hz. apply over_count_zero.
  - rewrite Hf', Hlen. apply over_count_full.
Qed.

Lemma pct_above_bounds_witness :
  column (mkFrame Sample.games_2024 None) "PTS" = Return [21; 16; 32]%Z
  /\ rows (mkFrame Sample.games_2024 None) <> []
  /\ exists p p' : Q,
       pct_above (mkFrame Sample.games_2024 None) "PTS" 20 = Return (Some p)
       /\ pct_above (mkFrame Sample.games_2024 None) "PTS" 30 = Return (Some p')
       /\ 0 <= p <= 100 /\ p' <= p.
Proof.
  assert (Hcol : column (mkFrame Sample.games_2024 None) "PTS"
                 = Return [21; 16; 32]%Z) by reflexivity.
  assert (Hne : rows (mkFrame Sample.games_2024 None) <> []) by discriminate.
  assert (Hl : (20 <= 30)%Z) by lia.
  destruct (pct_above_bounds _ _ 20%Z 30%Z _ Hcol Hne)
    as (p & p' & H1 & H2 & Hb & Hm & _).
  split; [exact Hcol|]. split; [exact Hne|].
  exists p, p'. exact (conj H1 (conj H2 (conj Hb (Hm Hl)))).
Defined.

End PercentMore.

(** ** More on the display section *)

Section DisplayMore.

Local Open Scope list_scope.

Lemma stat_block_length (df : GameFrame) (stat : string) (line : Z) :
  In stat ["PTS"; "REB"; "AST"; "MIN"] -> length (stat_block df stat line) = 3%nat.
Proof.
  intros [<-|[<-|[<-|[<-|[]]]]]; reflexivity.
Qed.

Lemma bind_lift_Return {A B} (a : A) (f : A -> App B) :
  lift (Return a) ≫= f = f a.
Proof. unfold mbind, App_bind. cbn. now destruct (f a). Qed.

(** X13.  On an empty game log the display section raises [IndexError]
    before showing anything.  On a non-empty one it never fails and
    shows, in order: the headshot; the logo of the team named before the
    first blank of the most recent game's matchup, when that team is
    known; the success message; the game table as fetched, without an
    [OverLine] column of a chart; then for PTS, REB, AST and MIN a
    heading, the chart and the caption, each computed as if from the
    fetched frame: the [OverLine] column that an earlier chart leaves in
    the shared frame has no effect on the later ones. *)
Theorem display_section_outcome (player_id : Z) (player_name : string)
    (stats_df : GameFrame) (lines : PropLines) :
  (rows stats_df = [] ->
   display_section player_id player_name stats_df lines
   = mkApp (Raise IndexError) [])
  /\ (forall (g : GameRecord) (gs : list GameRecord),
        rows stats_df = g :: gs ->
        let team_abbr := Py.first_field (MATCHUP g) in
        display_section player_id player_name stats_df lines
        = mkApp (Return tt)
            (st_image ("https://cdn.nba.com/headshots/nba/latest/1040x760/"
                       +:+ Py.str player_id +:+ ".png") player_name 200
             :: match team_logos !! team_abbr with
                | Some url => if negb (String.eqb url "")
                              then [st_image url (team_abbr +:+ " Logo") 100]
                              else []
                | None => []
                end
             ++ [st_success ("Showing last 10 games for " +:+ player_name);
                 st_dataframe stats_df]
             ++ stat_block stats_df "PTS" (pts_line lines)
             ++ stat_block stats_df "REB" (reb_line lines)
             ++ stat_block stats_df "AST" (ast_line lines)
             ++ stat_block stats_df "MIN" (min_line lines)))
  /\ (forall (stat : string) (line : Z),
        In stat ["PTS"; "REB"; "AST"; "MIN"] ->
        length (stat_block stats_df stat line) = 3%nat).
Proof.
  split; [|split; [|intros; now apply stat_block_length]].
  all: destruct stats_df as [rs over]; cbn [rows].
  - intros ->. reflexivity.
  - intros g gs ->. cbv zeta. unfold display_section. cbn [rows iloc0].
    rewrite bind_lift_Return.
    destruct (team_logos !! Py.first_field (MATCHUP g)) as [url|];
      [destruct (negb (String.eqb url ""))|]; reflexivity.
Qed.

Lemma display_section_outcome_witness :
  rows (mkFrame [] None) = []
  /\ display_section 2544 "LeBron James" (mkFrame [] None) Sample.lines
     = mkApp (Raise IndexError) []
  /\ rows (mkFrame Sample.games_2023 None) = Sample.games_2023
  /\ result (display_section 2544 "LeBron James" (mkFrame Sample.games_2023 None)
               Sample.lines) = Return tt
  /\ length (trace (display_section 2544 "LeBron James"
                      (mkFrame Sample.games_2023 None) Sample.lines)) = 16%nat.
Proof.
  destruct (display_section_outcome 2544 "LeBron James" (mkFrame [] None)
              Sample.lines) as [H1 _].
  destruct (display_section_outcome 2544 "LeBron James"
              (mkFrame Sample.games_2023 None) Sample.lines) as (_ & H2 & _).
  split; [reflexivity|]. split; [exact (H1 eq_refl)|]. split; [reflexivity|].
  rewrite (H2 _ _ eq_refl). split; reflexivity.
Defined.

End DisplayMore.
